(** * jukeaudio: a shallow embedding of [src/jukeaudio/jukeaudio.py]

    The module is a thin asynchronous client of the Juke Audio REST API.
    Every function builds an authorisation header, issues one HTTP request,
    looks at the status code and hands back the decoded body, or turns an
    [aiohttp.ClientError] into the library's own exception.

    Conventions of the embedding.
    - A Python [str] is represented by the byte sequence of its UTF-8
      encoding (a Rocq [string]).  Under this representation
      [bytes(s, "utf-8")] is the representation itself, [+] and f-string
      interpolation of a [str] are concatenation, [startswith] is the
      byte-prefix test and [len(s) > 0] holds exactly for a non-empty
      representation.
    - Values decoded from JSON are the dynamic [value]s of Python.
    - An awaited call either returns or raises: [result].
    - The HTTP server, aiohttp and the JSON decoder are outside the module.
      They appear as a function [net] from the request that was issued to
      what the client observes, and every operation records the requests it
      issued in a [trace]. *)

From Stdlib Require Import String Ascii List ZArith Lia Bool Arith.
Import ListNotations.
Local Open Scope string_scope.
Set Warnings "-register-all".

(** ** Strings and bytes *)

Definition str : Type := string.
Definition bytes : Type := string.

(** The double quote and the backslash, by code. *)
Definition dquote : ascii := ascii_of_nat 34.
Definition backslash : ascii := ascii_of_nat 92.

(** [bytes(s, "utf-8")]: the representation of [s]. *)
Definition encode_utf8 (s : str) : bytes := s.

(** [b.decode("utf-8")] for [b] made of ASCII bytes only (the output of
    [b64encode] is): a byte below 128 is the encoding of its own code point. *)
Definition decode_ascii (b : bytes) : str := b.

(** [s.startswith(p)]. *)
Fixpoint startswith (s p : str) {struct p} : bool :=
  match p with
  | EmptyString => true
  | String c p' =>
      match s with
      | EmptyString => false
      | String d s' => if Ascii.eqb c d then startswith s' p' else false
      end
  end.

(** ** [base64.b64encode] and [base64.b64decode] (RFC 4648, section 4) *)

Module Base64.

Definition alphabet : string :=
  "ABCDEFGHIJKLMNOPQRSTUVWXYZabcdefghijklmnopqrstuvwxyz0123456789+/".

Definition pad : ascii := "="%char.

(** A group of six bits, most significant first. *)
Inductive sextet : Type :=
| Sextet (b5 b4 b3 b2 b1 b0 : bool).

Definition sextet_index (x : sextet) : nat :=
  let 'Sextet b5 b4 b3 b2 b1 b0 := x in
  nat_of_ascii (Ascii b0 b1 b2 b3 b4 b5 false false).

Definition sextet_of_index (n : nat) : sextet :=
  let 'Ascii b0 b1 b2 b3 b4 b5 _ _ := ascii_of_nat n in
  Sextet b5 b4 b3 b2 b1 b0.

Definition encode_sextet (x : sextet) : ascii :=
  match String.get (sextet_index x) alphabet with
  | Some c => c
  | None => pad
  end.

Fixpoint index_of (c : ascii) (s : string) : option nat :=
  match s with
  | EmptyString => None
  | String d s' => if Ascii.eqb c d then Some 0 else option_map S (index_of c s')
  end.

Definition decode_sextet (c : ascii) : option sextet :=
  option_map sextet_of_index (index_of c alphabet).

(** The four sextets of a 24-bit group [a b c]; a short last group is
    filled with zero bits. *)
Definition sextet1 (a : ascii) : sextet :=
  let 'Ascii _ _ a2 a3 a4 a5 a6 a7 := a in Sextet a7 a6 a5 a4 a3 a2.

Definition sextet2 (a b : ascii) : sextet :=
  let 'Ascii a0 a1 _ _ _ _ _ _ := a in
  let 'Ascii _ _ _ _ b4 b5 b6 b7 := b in Sextet a1 a0 b7 b6 b5 b4.

Definition sextet3 (b c : ascii) : sextet :=
  let 'Ascii b0 b1 b2 b3 _ _ _ _ := b in
  let 'Ascii _ _ _ _ _ _ c6 c7 := c in Sextet b3 b2 b1 b0 c7 c6.

Definition sextet4 (c : ascii) : sextet :=
  let 'Ascii c0 c1 c2 c3 c4 c5 _ _ := c in Sextet c5 c4 c3 c2 c1 c0.

(** The three bytes of four sextets. *)
Definition byte1 (x y : sextet) : ascii :=
  let 'Sextet x5 x4 x3 x2 x1 x0 := x in
  let 'Sextet y5 y4 _ _ _ _ := y in Ascii y4 y5 x0 x1 x2 x3 x4 x5.

Definition byte2 (y z : sextet) : ascii :=
  let 'Sextet _ _ y3 y2 y1 y0 := y in
  let 'Sextet z5 z4 z3 z2 _ _ := z in Ascii z2 z3 z4 z5 y0 y1 y2 y3.

Definition byte3 (z w : sextet) : ascii :=
  let 'Sextet _ _ _ _ z1 z0 := z in
  let 'Sextet w5 w4 w3 w2 w1 w0 := w in Ascii w0 w1 w2 w3 w4 w5 z0 z1.

Definition zero : ascii := Ascii false false false false false false false false.

Fixpoint b64encode (data : bytes) : bytes :=
  match data with
  | EmptyString => EmptyString
  | String a EmptyString =>
      String (encode_sextet (sextet1 a))
        (String (encode_sextet (sextet2 a zero))
           (String pad (String pad EmptyString)))
  | String a (String b EmptyString) =>
      String (encode_sextet (sextet1 a))
        (String (encode_sextet (sextet2 a b))
           (String (encode_sextet (sextet3 b zero))
              (String pad EmptyString)))
  | String a (String b (String c rest)) =>
      String (encode_sextet (sextet1 a))
        (String (encode_sextet (sextet2 a b))
           (String (encode_sextet (sextet3 b c))
              (String (encode_sextet (sextet4 c)) (b64encode rest))))
  end.

(** Decoding of padded base64 text; [None] stands for [binascii.Error].
    Text outside the alphabet is refused (the [validate=True] reading); on
    the output of [b64encode] the lenient and the strict reading agree. *)
Fixpoint b64decode (text : bytes) : option bytes :=
  match text with
  | EmptyString => Some EmptyString
  | String c1 (String c2 (String c3 (String c4 rest))) =>
      match decode_sextet c1, decode_sextet c2 with
      | Some x, Some y =>
          if Ascii.eqb c4 pad then
            match rest with
            | EmptyString =>
                if Ascii.eqb c3 pad then Some (String (byte1 x y) EmptyString)
                else
                  match decode_sextet c3 with
                  | Some z => Some (String (byte1 x y) (String (byte2 y z) EmptyString))
                  | None => None
                  end
            | String _ _ => None
            end
          else
            match decode_sextet c3, decode_sextet c4, b64decode rest with
            | Some z, Some w, Some tl =>
                Some (String (byte1 x y) (String (byte2 y z) (String (byte3 z w) tl)))
            | _, _, _ => None
            end
      | _, _ => None
      end
  | _ => None
  end.

End Base64.

(** ** The two pure functions of the module *)

Definition api_version : str := "v2".

(** [create_auth_header]:
    [base64.b64encode(bytes(f"{user_name}:{password}", "utf-8")).decode("utf-8")]. *)
Definition create_auth_header (user_name password : str) : str :=
  decode_ascii (Base64.b64encode (encode_utf8 (user_name ++ ":" ++ password))).

(** [is_juke_compatible]: [ver.startswith(f"{api_version}.")]. *)
Definition is_juke_compatible (ver : str) : bool :=
  startswith ver (api_version ++ ".").

(** ** Dynamic values, exceptions, results *)

(** What [json.loads] produces.  A dictionary keeps its items in insertion
    order and has at most one item per key; a float is kept as its lexeme. *)
Inductive value : Type :=
| VNone
| VBool (b : bool)
| VInt (z : Z)
| VFloat (lexeme : string)
| VStr (s : str)
| VList (items : list value)
| VDict (items : list (str * value)).

(** The subclasses of [aiohttp.ClientError] a request can end in. *)
Inductive client_error : Type :=
| InvalidURL
| ClientConnectorError        (* connection refused, host unreachable *)
| ClientConnectorDNSError     (* name resolution failed *)
| ServerDisconnectedError     (* connection dropped *)
| ServerTimeoutError          (* connect or socket-read timeout *)
| ClientOSError
| ClientPayloadError          (* body truncated or badly framed *)
| ClientResponseError         (* malformed HTTP response *)
| ContentTypeError.           (* [json()] on a body not declared as JSON *)

(** The exceptions that can travel through the module.  [ClientError] wraps
    the aiohttp hierarchy, so [except aiohttp.ClientError] is the test
    [isinstance_ClientError].  [OtherError] keeps the model open: any class
    that does not derive from [aiohttp.ClientError]. *)
Inductive exn : Type :=
| ClientError (kind : client_error)
| TimeoutError                (* [asyncio.TimeoutError]: the total timeout *)
| JSONDecodeError             (* [json.JSONDecodeError], a [ValueError] *)
| UnicodeDecodeError
| KeyError (key : value)
| IndexError
| TypeError
| AttributeError
| OtherError (class_name : string)
| AuthenticationException
| UnexpectedException (cause : exn).

(** Modelled from the spec: module [exceptions] of the package, which
    declares [AuthenticationException] and [UnexpectedException], is not part
    of the sources at hand.  The spec gives them as the library's two failure
    kinds, distinct from the transport's errors: neither derives from
    [aiohttp.ClientError]. *)
Definition isinstance_ClientError (e : exn) : bool :=
  match e with
  | ClientError _ => true
  | _ => false
  end.

Inductive result (A : Type) : Type :=
| Ok (a : A)
| Raise (e : exn).

Arguments Ok {A} a.
Arguments Raise {A} e.

(** ** The transport *)

Inductive verb : Type := GET | PUT.

(** The [data=] argument of a request: none, a form ([dict]) with integer
    fields, or a text sent as it is. *)
Inductive payload : Type :=
| NoData
| FormData (fields : list (str * Z))
| RawData (text : str).

Record request : Type := mk_request {
  req_verb : verb;
  req_url : str;
  req_headers : list (str * str);
  req_data : payload
}.

(** What the client sees of a response: [response.status], and what
    awaiting [response.json()] and [response.text()] gives. *)
Record response : Type := mk_response {
  status : Z;
  json : result value;
  text : result str
}.

(** The requests issued so far, oldest first. *)
Definition trace : Type := list request.

(** An awaitable: it runs against the log of requests and returns or raises. *)
Definition aio (A : Type) : Type := trace -> result A * trace.

Definition ret {A : Type} (a : A) : aio A := fun log => (Ok a, log).

Definition raise {A : Type} (e : exn) : aio A := fun log => (Raise e, log).

Definition bind {A B : Type} (m : aio A) (k : A -> aio B) : aio B :=
  fun log =>
    match m log with
    | (Ok a, log') => k a log'
    | (Raise e, log') => (Raise e, log')
    end.

(** [await x] where the outcome of [x] is already fixed by the response. *)
Definition await {A : Type} (r : result A) : aio A := fun log => (r, log).

(** [try: body except cls as exc: handler exc]. *)
Definition try_except {A : Type} (body : aio A) (cls : exn -> bool)
    (handler : exn -> aio A) : aio A :=
  fun log =>
    match body log with
    | (Ok a, log') => (Ok a, log')
    | (Raise e, log') => if cls e then handler e log' else (Raise e, log')
    end.

Declare Scope aio_scope.
Delimit Scope aio_scope with aio.
Notation "x <- m ;; k" := (bind m (fun x => k))
  (at level 61, m at next level, right associativity) : aio_scope.
Notation "'try' body 'except_ClientError' 'as' exc '=>' handler" :=
  (try_except body isinstance_ClientError (fun exc => handler))
  (at level 10, exc name, body at level 200, handler at level 200) : aio_scope.

(** ** Subscripting and attribute access on dynamic values *)

Fixpoint dict_get (items : list (str * value)) (key : str) : option value :=
  match items with
  | [] => None
  | (k, v) :: items' => if String.eqb k key then Some v else dict_get items' key
  end.

(** Number of bytes of the UTF-8 sequence that starts with byte [c]. *)
Definition utf8_width (c : ascii) : nat :=
  let n := nat_of_ascii c in
  if (n <? 192)%nat then 1%nat
  else if (n <? 224)%nat then 2%nat
  else if (n <? 240)%nat then 3%nat
  else 4%nat.

(** [v[key]] for a [str] key. *)
Definition getitem_str (v : value) (key : str) : result value :=
  match v with
  | VDict items =>
      match dict_get items key with
      | Some x => Ok x
      | None => Raise (KeyError (VStr key))
      end
  | _ => Raise TypeError
  end.

(** [v[0]]. *)
Definition getitem_0 (v : value) : result value :=
  match v with
  | VList (x :: _) => Ok x
  | VList [] => Raise IndexError
  | VStr EmptyString => Raise IndexError
  | VStr (String c s) => Ok (VStr (String c (substring 0 (utf8_width c - 1) s)))
  | VDict _ => Raise (KeyError (VInt 0))
  | _ => Raise TypeError
  end.

(** The call [is_juke_compatible(v)] on a value that came out of JSON: only
    a [str] has [startswith]. *)
Definition call_is_juke_compatible (v : value) : result bool :=
  match v with
  | VStr ver => Ok (is_juke_compatible ver)
  | _ => Raise AttributeError
  end.

(** ** The operations of the module *)

Section Client.

(** The device as the client meets it: entering [session.get(url)] or
    [session.put(url, data=...)] either raises or yields a response. *)
Variable net : request -> result response.

(** [aiohttp.ClientSession(headers=hdr)] followed by one request in it.
    The request is logged whether or not it succeeds. *)
Definition session_request (hdr : list (str * str)) (v : verb) (url : str)
    (data : payload) : aio response :=
  fun log =>
    let req := mk_request v url hdr data in
    (net req, (log ++ [req])%list).

Definition session_get (hdr : list (str * str)) (url : str) : aio response :=
  session_request hdr GET url NoData.

Definition session_put (hdr : list (str * str)) (url : str) (data : payload) :
    aio response :=
  session_request hdr PUT url data.

Local Open Scope aio_scope.

(** The text [" + s + "], as [f"\"{s}\""] builds it. *)
Definition quoted (s : str) : str :=
  String dquote EmptyString ++ s ++ String dquote EmptyString.

Definition can_connect_to_juke (ip_address : str) : aio bool :=
  try
    (response <- session_get [] ("http://" ++ ip_address ++ "/api/") ;;
     contents <- await (json response) ;;
     versions <- await (getitem_str contents "versions") ;;
     first <- await (getitem_0 versions) ;;
     await (call_is_juke_compatible first))
  except_ClientError as exc => ret false.

Definition get_devices (ip_address username password : str) : aio value :=
  try
    (let hdr := [("Authorization", "Bearer " ++ create_auth_header username password)] in
     response <- session_get hdr
       ("http://" ++ ip_address ++ "/api/" ++ api_version ++ "/devices/") ;;
     if negb (status response =? 200)%Z then raise AuthenticationException
     else
       contents <- await (json response) ;;
       ret contents)
  except_ClientError as exc => raise (UnexpectedException exc).

Definition get_device_connection_info (ip_address username password device_id : str) :
    aio value :=
  try
    (let hdr := [("Authorization", "Bearer " ++ create_auth_header username password)] in
     response <- session_get hdr
       ("http://" ++ ip_address ++ "/api/" ++ api_version ++ "/devices/"
          ++ device_id ++ "/connection") ;;
     if negb (status response =? 200)%Z then raise AuthenticationException
     else
       contents <- await (json response) ;;
       ret contents)
  except_ClientError as exc => raise (UnexpectedException exc).

Definition get_device_attributes (ip_address username password device_id : str) :
    aio value :=
  try
    (let hdr := [("Authorization", "Bearer " ++ create_auth_header username password)] in
     response <- session_get hdr
       ("http://" ++ ip_address ++ "/api/" ++ api_version ++ "/devices/"
          ++ device_id ++ "/attributes") ;;
     if negb (status response =? 200)%Z then raise AuthenticationException
     else
       contents <- await (json response) ;;
       ret contents)
  except_ClientError as exc => raise (UnexpectedException exc).

Definition get_device_config (ip_address username password device_id : str) :
    aio value :=
  try
    (let hdr := [("Authorization", "Bearer " ++ create_auth_header username password)] in
     response <- session_get hdr
       ("http://" ++ ip_address ++ "/api/" ++ api_version ++ "/devices/"
          ++ device_id ++ "/config") ;;
     if negb (status response =? 200)%Z then raise AuthenticationException
     else
       contents <- await (json response) ;;
       ret contents)
  except_ClientError as exc => raise (UnexpectedException exc).

Definition get_device_metrics (ip_address username password device_id : str) :
    aio value :=
  try
    (let hdr := [("Authorization", "Bearer " ++ create_auth_header username password)] in
     response <- session_get hdr
       ("http://" ++ ip_address ++ "/api/" ++ api_version ++ "/devices/"
          ++ device_id ++ "/metrics") ;;
     if negb (status response =? 200)%Z then raise AuthenticationException
     else
       contents <- await (json response) ;;
       ret contents)
  except_ClientError as exc => raise (UnexpectedException exc).

Definition get_zones (ip_address username password : str) : aio value :=
  try
    (let hdr := [("Authorization", "Bearer " ++ create_auth_header username password)] in
     response <- session_get hdr
       ("http://" ++ ip_address ++ "/api/" ++ api_version ++ "/zones") ;;
     if negb (status response =? 200)%Z then raise AuthenticationException
     else
       contents <- await (json response) ;;
       ret contents)
  except_ClientError as exc => raise (UnexpectedException exc).

Definition get_zone_config (ip_address username password zone_id : str) : aio value :=
  try
    (let hdr := [("Authorization", "Bearer " ++ create_auth_header username password)] in
     response <- session_get hdr
       ("http://" ++ ip_address ++ "/api/" ++ api_version ++ "/zones/" ++ zone_id) ;;
     if negb (status response =? 200)%Z then raise AuthenticationException
     else
       contents <- await (json response) ;;
       ret contents)
  except_ClientError as exc => raise (UnexpectedException exc).

Definition set_zone_volume (ip_address username password zone_id : str) (volume : Z) :
    aio value :=
  try
    (let hdr := [("Authorization", "Bearer " ++ create_auth_header username password)] in
     response <- session_put hdr
       ("http://" ++ ip_address ++ "/api/" ++ api_version ++ "/zones/"
          ++ zone_id ++ "/volume")
       (FormData [("volume", volume)]) ;;
     if negb (status response =? 200)%Z then raise AuthenticationException
     else
       contents <- await (text response) ;;
       ret (VStr contents))
  except_ClientError as exc => raise (UnexpectedException exc).

(** [input] may be [None].  The [print(response.status)] of the non-200
    branch writes to standard output and changes neither the request nor the
    outcome; it is left out. *)
Definition set_zone_input (ip_address username password zone_id : str)
    (input : option str) : aio value :=
  try
    (let hdr := [("Authorization", "Bearer " ++ create_auth_header username password)] in
     let data := "[]" in
     let data :=
       match input with
       | Some s => if (0 <? String.length s)%nat then "[" ++ quoted s ++ "]" else data
       | None => data
       end in
     response <- session_put hdr
       ("http://" ++ ip_address ++ "/api/" ++ api_version ++ "/zones/"
          ++ zone_id ++ "/input")
       (RawData data) ;;
     if negb (status response =? 200)%Z then raise AuthenticationException
     else
       contents <- await (text response) ;;
       ret (VStr contents))
  except_ClientError as exc => raise (UnexpectedException exc).

Definition get_inputs (ip_address username password : str) : aio value :=
  try
    (let hdr := [("Authorization", "Bearer " ++ create_auth_header username password)] in
     response <- session_get hdr
       ("http://" ++ ip_address ++ "/api/" ++ api_version ++ "/inputs") ;;
     if negb (status response =? 200)%Z then raise AuthenticationException
     else
       contents <- await (json response) ;;
       ret contents)
  except_ClientError as exc => raise (UnexpectedException exc).

Definition get_input_config (ip_address username password input_id : str) : aio value :=
  try
    (let hdr := [("Authorization", "Bearer " ++ create_auth_header username password)] in
     response <- session_get hdr
       ("http://" ++ ip_address ++ "/api/" ++ api_version ++ "/inputs/" ++ input_id) ;;
     if negb (status response =? 200)%Z then raise AuthenticationException
     else
       contents <- await (json response) ;;
       ret contents)
  except_ClientError as exc => raise (UnexpectedException exc).

Definition get_available_inputs (ip_address username password input_id : str) :
    aio value :=
  try
    (let hdr := [("Authorization", "Bearer " ++ create_auth_header username password)] in
     response <- session_get hdr
       ("http://" ++ ip_address ++ "/api/" ++ api_version ++ "/inputs/"
          ++ input_id ++ "/available-types") ;;
     if negb (status response =? 200)%Z then raise AuthenticationException
     else
       contents <- await (json response) ;;
       await (getitem_str contents "available_types"))
  except_ClientError as exc => raise (UnexpectedException exc).

(** *** The authenticated operations as one family *)

(** An authenticated call: which function, with its own arguments. *)
Inductive operation : Type :=
| GetDevices
| GetDeviceConnectionInfo (device_id : str)
| GetDeviceAttributes (device_id : str)
| GetDeviceConfig (device_id : str)
| GetDeviceMetrics (device_id : str)
| GetZones
| GetZoneConfig (zone_id : str)
| SetZoneVolume (zone_id : str) (volume : Z)
| SetZoneInput (zone_id : str) (input : option str)
| GetInputs
| GetInputConfig (input_id : str)
| GetAvailableInputs (input_id : str).

Definition call (ip_address username password : str) (op : operation) : aio value :=
  match op with
  | GetDevices => get_devices ip_address username password
  | GetDeviceConnectionInfo device_id =>
      get_device_connection_info ip_address username password device_id
  | GetDeviceAttributes device_id =>
      get_device_attributes ip_address username password device_id
  | GetDeviceConfig device_id => get_device_config ip_address username password device_id
  | GetDeviceMetrics device_id => get_device_metrics ip_address username password device_id
  | GetZones => get_zones ip_address username password
  | GetZoneConfig zone_id => get_zone_config ip_address username password zone_id
  | SetZoneVolume zone_id volume =>
      set_zone_volume ip_address username password zone_id volume
  | SetZoneInput zone_id input => set_zone_input ip_address username password zone_id input
  | GetInputs => get_inputs ip_address username password
  | GetInputConfig input_id => get_input_config ip_address username password input_id
  | GetAvailableInputs input_id =>
      get_available_inputs ip_address username password input_id
  end.

End Client.

(** ** JSON texts that are arrays of strings (RFC 8259)

    [set_zone_input] sends a text that the device is to read as a JSON
    array.  What such a text denotes is fixed by the JSON grammar, not by
    the module: this is the reading of a text as an array of strings,
    [None] when the text is not one. *)

Module JsonText.

Definition is_ws (c : ascii) : bool :=
  let n := nat_of_ascii c in
  ((n =? 32) || (n =? 9) || (n =? 10) || (n =? 13))%nat.

Fixpoint skip_ws (s : string) : string :=
  match s with
  | EmptyString => EmptyString
  | String c r => if is_ws c then skip_ws r else s
  end.

Fixpoint all_ws (s : string) : bool :=
  match s with
  | EmptyString => true
  | String c r => is_ws c && all_ws r
  end.

(** A character that may not stand unescaped inside a string. *)
Definition is_control (c : ascii) : bool := (nat_of_ascii c <? 32)%nat.

Definition hex_digit (c : ascii) : option N :=
  let n := N_of_ascii c in
  if ((48 <=? n) && (n <=? 57))%N then Some (n - 48)%N
  else if ((65 <=? n) && (n <=? 70))%N then Some (n - 55)%N
  else if ((97 <=? n) && (n <=? 102))%N then Some (n - 87)%N
  else None.

Definition hex4 (h1 h2 h3 h4 : ascii) : option N :=
  match hex_digit h1, hex_digit h2, hex_digit h3, hex_digit h4 with
  | Some a, Some b, Some c, Some d => Some (((a * 16 + b) * 16 + c) * 16 + d)%N
  | _, _, _, _ => None
  end.

(** The character a two-character escape stands for. *)
Definition simple_escape (e : ascii) : option ascii :=
  if Ascii.eqb e dquote then Some dquote
  else if Ascii.eqb e backslash then Some backslash
  else if Ascii.eqb e "/" then Some "/"%char
  else if Ascii.eqb e "b" then Some (ascii_of_nat 8)
  else if Ascii.eqb e "f" then Some (ascii_of_nat 12)
  else if Ascii.eqb e "n" then Some (ascii_of_nat 10)
  else if Ascii.eqb e "r" then Some (ascii_of_nat 13)
  else if Ascii.eqb e "t" then Some (ascii_of_nat 9)
  else None.

(** What a string literal is made of: a byte of the text (or of a
    two-character escape), or the 16-bit unit of a [\uXXXX] escape. *)
Inductive piece : Type :=
| Byte (c : ascii)
| Unit16 (n : N).

Definition push (p : piece) (r : option (list piece * string)) :
    option (list piece * string) :=
  match r with
  | Some (ps, rest) => Some (p :: ps, rest)
  | None => None
  end.

(** The inside of a string literal, from just after its opening quote to
    its closing quote; the text after the closing quote is handed back. *)
Fixpoint scan_string (s : string) : option (list piece * string) :=
  match s with
  | EmptyString => None
  | String c r =>
      if Ascii.eqb c dquote then Some ([], r)
      else if Ascii.eqb c backslash then
        match r with
        | EmptyString => None
        | String e r1 =>
            match simple_escape e with
            | Some d => push (Byte d) (scan_string r1)
            | None =>
                if Ascii.eqb e "u" then
                  match r1 with
                  | String h1 (String h2 (String h3 (String h4 r2))) =>
                      match hex4 h1 h2 h3 h4 with
                      | Some n => push (Unit16 n) (scan_string r2)
                      | None => None
                      end
                  | _ => None
                  end
                else None
            end
        end
      else if is_control c then None
      else push (Byte c) (scan_string r)
  end.

(** UTF-8 of a code point (surrogates included, as three bytes). *)
Definition utf8_of_code (n : N) : string :=
  if (n <? 128)%N then String (ascii_of_N n) EmptyString
  else if (n <? 2048)%N then
    String (ascii_of_N (192 + n / 64))
      (String (ascii_of_N (128 + n mod 64)) EmptyString)
  else if (n <? 65536)%N then
    String (ascii_of_N (224 + n / 4096))
      (String (ascii_of_N (128 + (n / 64) mod 64))
         (String (ascii_of_N (128 + n mod 64)) EmptyString))
  else
    String (ascii_of_N (240 + n / 262144))
      (String (ascii_of_N (128 + (n / 4096) mod 64))
         (String (ascii_of_N (128 + (n / 64) mod 64))
            (String (ascii_of_N (128 + n mod 64)) EmptyString))).

Definition is_high_surrogate (n : N) : bool := ((55296 <=? n) && (n <=? 56319))%N.
Definition is_low_surrogate (n : N) : bool := ((56320 <=? n) && (n <=? 57343))%N.

(** The [str] a string literal denotes: a high surrogate followed by a low
    one is one code point. *)
Fixpoint assemble (ps : list piece) : str :=
  match ps with
  | [] => EmptyString
  | Byte c :: ps' => String c (assemble ps')
  | Unit16 hi :: ps' =>
      match ps' with
      | Unit16 lo :: ps'' =>
          if is_high_surrogate hi && is_low_surrogate lo then
            utf8_of_code (65536 + (hi - 55296) * 1024 + (lo - 56320)) ++ assemble ps''
          else utf8_of_code hi ++ assemble ps'
      | _ => utf8_of_code hi ++ assemble ps'
      end
  end.

(** The pieces that spell [s] out byte by byte. *)
Fixpoint pieces_of (s : string) : list piece :=
  match s with
  | EmptyString => []
  | String c s' => Byte c :: pieces_of s'
  end.

(** A bound on the number of bytes pieces denote: one for a byte, at most
    four for a unit. *)
Fixpoint weight (ps : list piece) : nat :=
  match ps with
  | [] => 0
  | Byte _ :: ps' => 1 + weight ps'
  | Unit16 _ :: ps' => 4 + weight ps'
  end.

(** The elements of a non-empty array, from just after its [[] or a [,].
    One unit of fuel is spent per element. *)
Fixpoint elements (fuel : nat) (s : string) : option (list str) :=
  match fuel with
  | O => None
  | S fuel' =>
      match skip_ws s with
      | EmptyString => None
      | String q r =>
          if Ascii.eqb q dquote then
            match scan_string r with
            | None => None
            | Some (ps, r1) =>
                match skip_ws r1 with
                | EmptyString => None
                | String d r2 =>
                    if Ascii.eqb d "]" then
                      if all_ws r2 then Some [assemble ps] else None
                    else if Ascii.eqb d "," then
                      option_map (cons (assemble ps)) (elements fuel' r2)
                    else None
                end
            end
          else None
      end
  end.

(** The array of strings a text denotes.  The fuel handed to [elements]
    exceeds the length of the text it reads, which is more than it can
    spend (lemma [elements_fuel] below). *)
Definition loads_string_array (s : string) : option (list str) :=
  match skip_ws s with
  | EmptyString => None
  | String b r =>
      if Ascii.eqb b "[" then
        match skip_ws r with
        | EmptyString => None
        | String e r' =>
            if Ascii.eqb e "]" then (if all_ws r' then Some [] else None)
            else elements (S (String.length r)) r
        end
      else None
  end.

End JsonText.

(** ** Servers used as test inputs *)

(** Status 200, a JSON body that decodes to [v] and whose text is [raw]. *)
Definition ok_json (v : value) (raw : str) : response :=
  mk_response 200 (Ok v) (Ok raw).

(** Status 200 and a plain-text body. *)
Definition ok_text (s : str) : response :=
  mk_response 200 (Raise (ClientError ContentTypeError)) (Ok s).

(** Answers every request with [r]. *)
Definition always (r : response) : request -> result response := fun _ => Ok r.

(** Every request fails with [e] before a response exists. *)
Definition failing (e : exn) : request -> result response := fun _ => Raise e.

(** Status 401 and an empty JSON object. *)
Definition unauthorized : response :=
  mk_response 401 (Ok (VDict [])) (Ok "Unauthorized").

(** Status 200 with a body that is not JSON. *)
Definition garbled : response :=
  mk_response 200 (Raise JSONDecodeError) (Ok "<html>").

Definition versions_body (vs : list str) : value :=
  VDict [("versions", VList (map VStr vs))].

(** An identifier with a double quote in it: a, quote, b. *)
Definition name_with_quote : str := "a" ++ String dquote "b".

(** An identifier made of two backslashes. *)
Definition two_backslashes : str := String backslash (String backslash EmptyString).

(** The same server with every status replaced by [f] of the response. *)
Definition with_status (f : response -> Z) (net : request -> result response) :
    request -> result response :=
  fun req =>
    match net req with
    | Ok r => Ok (mk_response (f r) (json r) (text r))
    | Raise e => Raise e
    end.

(** ** The shared contract, as the specification words it

    Section 4.1 of the specification describes every authenticated
    operation as one contract applied to a verb, a path and a way of
    reading the body.  These definitions follow that description; lemma
    [call_contract] below shows that the twelve functions implement it. *)

(** The request of each operation (the table of operations). *)
Definition request_of (ip_address username password : str) (op : operation) : request :=
  let hdr := [("Authorization", "Bearer " ++ create_auth_header username password)] in
  let url := fun path : str => "http://" ++ ip_address ++ "/api/" ++ api_version ++ path in
  match op with
  | GetDevices => mk_request GET (url "/devices/") hdr NoData
  | GetDeviceConnectionInfo id =>
      mk_request GET (url ("/devices/" ++ id ++ "/connection")) hdr NoData
  | GetDeviceAttributes id =>
      mk_request GET (url ("/devices/" ++ id ++ "/attributes")) hdr NoData
  | GetDeviceConfig id => mk_request GET (url ("/devices/" ++ id ++ "/config")) hdr NoData
  | GetDeviceMetrics id => mk_request GET (url ("/devices/" ++ id ++ "/metrics")) hdr NoData
  | GetZones => mk_request GET (url "/zones") hdr NoData
  | GetZoneConfig id => mk_request GET (url ("/zones/" ++ id)) hdr NoData
  | SetZoneVolume id volume =>
      mk_request PUT (url ("/zones/" ++ id ++ "/volume")) hdr
        (FormData [("volume", volume)])
  | SetZoneInput id input =>
      mk_request PUT (url ("/zones/" ++ id ++ "/input")) hdr
        (RawData
           match input with
           | None | Some EmptyString => "[]"
           | Some s => "[" ++ quoted s ++ "]"
           end)
  | GetInputs => mk_request GET (url "/inputs") hdr NoData
  | GetInputConfig id => mk_request GET (url ("/inputs/" ++ id)) hdr NoData
  | GetAvailableInputs id =>
      mk_request GET (url ("/inputs/" ++ id ++ "/available-types")) hdr NoData
  end.

(** How the body of a 200 response is read: as text by the two mutations,
    as JSON by every other operation. *)
Definition awaited_body (op : operation) (r : response) : result value :=
  match op with
  | SetZoneVolume _ _ | SetZoneInput _ _ =>
      match text r with
      | Ok s => Ok (VStr s)
      | Raise e => Raise e
      end
  | _ => json r
  end.

(** What is handed back from the decoded body: the [available_types] field
    for the available input types, the body itself otherwise. *)
Definition returned (op : operation) (v : value) : result value :=
  match op with
  | GetAvailableInputs _ => getitem_str v "available_types"
  | _ => Ok v
  end.

(** The exception raised below the error translation, if any: by the
    transport, by reading the body, or by taking the field. *)
Definition fault (op : operation) (r : result response) : option exn :=
  match r with
  | Raise e => Some e
  | Ok resp =>
      if negb (status resp =? 200)%Z then None
      else
        match awaited_body op resp with
        | Raise e => Some e
        | Ok v =>
            match returned op v with
            | Raise e => Some e
            | Ok _ => None
            end
        end
  end.

(** The error translation: a transport error is wrapped. *)
Definition translate (e : exn) : exn :=
  if isinstance_ClientError e then UnexpectedException e else e.

Definition outcome (op : operation) (r : result response) : result value :=
  match r with
  | Raise e => Raise (translate e)
  | Ok resp =>
      if negb (status resp =? 200)%Z then Raise AuthenticationException
      else
        match awaited_body op resp with
        | Raise e => Raise (translate e)
        | Ok v =>
            match returned op v with
            | Raise e => Raise (translate e)
            | Ok x => Ok x
            end
        end
  end.

(** The request of the connectivity probe. *)
Definition probe_request (ip_address : str) : request :=
  mk_request GET ("http://" ++ ip_address ++ "/api/") [] NoData.

(** The request [set_zone_input] issues around the text [body]. *)
Definition zone_input_request (ip_address username password zone_id body : str) : request :=
  mk_request PUT
    ("http://" ++ ip_address ++ "/api/" ++ api_version ++ "/zones/" ++ zone_id ++ "/input")
    [("Authorization", "Bearer " ++ create_auth_header username password)]
    (RawData body).

(** ** Predicates on identifiers *)

(** [c] occurs in [s]. *)
Fixpoint occurs (c : ascii) (s : string) : bool :=
  match s with
  | EmptyString => false
  | String d s' => Ascii.eqb c d || occurs c s'
  end.

(** No double quote, no backslash and no control character: the strings a
    JSON string literal spells out as they are. *)
Fixpoint is_plain (s : string) : bool :=
  match s with
  | EmptyString => true
  | String c s' =>
      negb (Ascii.eqb c dquote) && negb (Ascii.eqb c backslash)
      && negb (JsonText.is_control c) && is_plain s'
  end.

(** Every character of [s] passes [f]. *)
Fixpoint string_forall (f : ascii -> bool) (s : string) : bool :=
  match s with
  | EmptyString => true
  | String c s' => f c && string_forall f s'
  end.

(** A character base64 text is made of: one of the alphabet, or the pad. *)
Definition is_b64_char (c : ascii) : bool :=
  occurs c Base64.alphabet || Ascii.eqb c Base64.pad.

(** A byte that is a code point of its own in UTF-8. *)
Definition is_ascii (c : ascii) : bool := (nat_of_ascii c <? 128)%nat.

(** The three characters quote, comma, quote. *)
Definition quote_comma_quote : str :=
  String dquote (String "," (String dquote EmptyString)).

(** Whether a value is a [str]. *)
Definition is_str (v : value) : bool :=
  match v with
  | VStr _ => true
  | _ => false
  end.

(** One call of each authenticated operation. *)
Definition sample_operations : list operation :=
  [GetDevices; GetDeviceConnectionInfo "1"; GetDeviceAttributes "1"; GetDeviceConfig "1";
   GetDeviceMetrics "1"; GetZones; GetZoneConfig "3"; SetZoneVolume "3" 25;
   SetZoneInput "3" (Some "aux1"); GetInputs; GetInputConfig "4"; GetAvailableInputs "4"].

(** ** Symbolic execution of the operations

    Unfolding the monad and the functions leaves the case analysis on what
    the transport answered. *)

Ltac run_operation :=
  cbv beta iota zeta delta
    [call get_devices get_device_connection_info get_device_attributes
     get_device_config get_device_metrics get_zones get_zone_config
     set_zone_volume set_zone_input get_inputs get_input_config
     get_available_inputs try_except bind ret raise await session_get
     session_put session_request request_of outcome awaited_body returned
     translate].

Ltac run_probe :=
  cbv beta iota zeta delta
    [can_connect_to_juke try_except bind ret raise await session_get
     session_request probe_request].

(** * Properties *)

(** ** Base64 *)

Module Base64Facts.
Import Base64.

(** The test vectors of RFC 4648, section 10. *)
Example b64_rfc_vectors :
  b64encode "" = "" /\ b64encode "f" = "Zg==" /\ b64encode "fo" = "Zm8=" /\
  b64encode "foo" = "Zm9v" /\ b64encode "foob" = "Zm9vYg==" /\
  b64encode "fooba" = "Zm9vYmE=" /\ b64encode "foobar" = "Zm9vYmFy".
Proof. repeat split. Qed.

Example b64_admin : create_auth_header "Admin" "Admin" = "QWRtaW46QWRtaW4=".
Proof. reflexivity. Qed.

Lemma decode_encode_sextet (x : sextet) : decode_sextet (encode_sextet x) = Some x.
Proof.
  destruct x as [b5 b4 b3 b2 b1 b0].
  destruct b5, b4, b3, b2, b1, b0; reflexivity.
Qed.

Lemma encode_sextet_not_pad (x : sextet) : Ascii.eqb (encode_sextet x) pad = false.
Proof.
  destruct x as [b5 b4 b3 b2 b1 b0].
  destruct b5, b4, b3, b2, b1, b0; reflexivity.
Qed.

Lemma byte1_sextets (a b : ascii) : byte1 (sextet1 a) (sextet2 a b) = a.
Proof. destruct a, b; reflexivity. Qed.

Lemma byte2_sextets (a b c : ascii) : byte2 (sextet2 a b) (sextet3 b c) = b.
Proof. destruct a, b, c; reflexivity. Qed.

Lemma byte3_sextets (b c : ascii) : byte3 (sextet3 b c) (sextet4 c) = c.
Proof. destruct b, c; reflexivity. Qed.

(** Induction over a byte string three bytes at a time. *)
Lemma string_ind3 (P : string -> Prop) :
  P EmptyString ->
  (forall a, P (String a EmptyString)) ->
  (forall a b, P (String a (String b EmptyString))) ->
  (forall a b c rest, P rest -> P (String a (String b (String c rest)))) ->
  forall s, P s.
Proof.
  intros H0 H1 H2 H3.
  fix IH 1.
  intros [|a [|b [|c rest]]].
  - exact H0.
  - apply H1.
  - apply H2.
  - apply H3, IH.
Qed.

Lemma b64decode_b64encode (data : bytes) : b64decode (b64encode data) = Some data.
Proof.
  induction data as [|a|a b|a b c rest IH] using string_ind3.
  - reflexivity.
  - cbn [b64encode b64decode].
    rewrite !decode_encode_sextet, !Ascii.eqb_refl.
    now rewrite byte1_sextets.
  - cbn [b64encode b64decode].
    rewrite !decode_encode_sextet, Ascii.eqb_refl, encode_sextet_not_pad.
    now rewrite byte1_sextets, byte2_sextets.
  - cbn [b64encode b64decode].
    rewrite !decode_encode_sextet, encode_sextet_not_pad, IH.
    now rewrite byte1_sextets, byte2_sextets, byte3_sextets.
Qed.

(** The encoding is four characters for every three bytes or part of them. *)
Lemma b64encode_length (data : bytes) :
  String.length (b64encode data) = 4 * ((String.length data + 2) / 3).
Proof.
  induction data as [|a|a b|a b c rest IH] using string_ind3; try reflexivity.
  cbn [b64encode String.length]. rewrite IH.
  replace (S (S (S (String.length rest))) + 2) with (String.length rest + 2 + 1 * 3) by lia.
  rewrite Nat.div_add by lia. lia.
Qed.

End Base64Facts.

(** ** The pure functions *)

Lemma startswith_spec (p s : str) :
  startswith s p = true <-> exists rest, s = p ++ rest.
Proof.
  revert s; induction p as [|c p IH]; intros s; cbn [startswith].
  - split; [intros _; now exists s | reflexivity].
  - destruct s as [|d s].
    + split; [discriminate | intros [rest H]; discriminate H].
    + destruct (Ascii.eqb_spec c d) as [->|Hcd].
      * rewrite IH. split; intros [rest H]; exists rest.
        -- now rewrite H.
        -- now injection H.
      * split; [discriminate | intros [rest H]].
         injection H as Hd _. congruence.
Qed.

(** ** The authenticated operations implement the shared contract *)

Section Contract.

Variable net : request -> result response.

Lemma call_contract (ip_address username password : str) (op : operation) (log : trace) :
  call net ip_address username password op log =
  (outcome op (net (request_of ip_address username password op)),
   (log ++ [request_of ip_address username password op])%list).
Proof.
  destruct op as [| | | | | | | | zone_id [[|c s]|] | | |]; run_operation;
    cbn [String.length Nat.ltb Nat.leb];
    (destruct (net _) as [resp|e];
     [ destruct (negb (status resp =? 200)%Z); [reflexivity|];
       lazymatch goal with
       | |- context [json resp] => destruct (json resp) as [v|e]
       | |- context [text resp] => destruct (text resp) as [v|e]
       end;
       [ try reflexivity | destruct (isinstance_ClientError e); reflexivity ]
     | destruct (isinstance_ClientError e); reflexivity ]).
  destruct (getitem_str v "available_types") as [x|e]; [reflexivity|].
  destruct (isinstance_ClientError e); reflexivity.
Qed.

(** The request an operation issued is the one the table gives. *)
Lemma issued_request (ip_address username password : str) (op : operation)
    (log : trace) (req : request) :
  snd (call net ip_address username password op log) = (log ++ [req])%list ->
  req = request_of ip_address username password op.
Proof.
  rewrite call_contract. cbn [snd]. intros H.
  apply app_inv_head in H. now injection H.
Qed.

Lemma translate_not_ClientError (e : exn) : isinstance_ClientError (translate e) = false.
Proof.
  unfold translate. destruct (isinstance_ClientError e) eqn:He; [reflexivity | exact He].
Qed.

End Contract.

(** ** The authorisation token *)

(** C5: the token of [create_auth_header u p] is the base64 encoding of
    [u:p], decoding it gives [u:p] back, and every authenticated call puts
    the token computed from its own credentials, after [Bearer ], in the
    [Authorization] header of the request it issues. *)
Theorem auth_token_roundtrip (u p : str) :
  create_auth_header u p = Base64.b64encode (u ++ ":" ++ p) /\
  Base64.b64decode (create_auth_header u p) = Some (u ++ ":" ++ p) /\
  forall (net : request -> result response) (ip_address : str) (op : operation)
         (log : trace),
  exists req : request,
    snd (call net ip_address u p op log) = (log ++ [req])%list /\
    req_headers req = [("Authorization", "Bearer " ++ create_auth_header u p)].
Proof.
  split; [reflexivity|]. split.
  - unfold create_auth_header, decode_ascii, encode_utf8.
    apply Base64Facts.b64decode_b64encode.
  - intros net ip_address op log.
    exists (request_of ip_address u p op). split.
    + now rewrite call_contract.
    + destruct op; reflexivity.
Qed.

(** C6: [is_juke_compatible ver] holds exactly when [ver] begins with
    [v2.], dot included: it holds of [v2.3] and fails of [v1.9] and [v2]. *)
Theorem is_juke_compatible_prefix :
  (forall ver : str,
     is_juke_compatible ver = true <-> exists rest : str, ver = "v2." ++ rest) /\
  is_juke_compatible "v2.3" = true /\
  is_juke_compatible "v1.9" = false /\
  is_juke_compatible "v2" = false.
Proof.
  split.
  - intros ver. unfold is_juke_compatible.
    exact (startswith_spec (api_version ++ ".") ver).
  - repeat split.
Qed.

(** ** Status codes and error translation *)

(** C1: an authenticated operation issues its request, and when the
    response to it has a status other than 200 the operation raises
    [AuthenticationException], whatever the status is and whatever the body
    holds. *)
Theorem non_200_is_authentication_error
    (net : request -> result response) (ip_address username password : str)
    (op : operation) (log : trace) (resp : response) :
  net (request_of ip_address username password op) = Ok resp ->
  status resp <> 200%Z ->
  call net ip_address username password op log =
  (Raise AuthenticationException,
   (log ++ [request_of ip_address username password op])%list).
Proof.
  intros Hnet Hstatus.
  rewrite call_contract. unfold outcome. rewrite Hnet.
  destruct (Z.eqb_spec (status resp) 200) as [H200|_]; [contradiction | reflexivity].
Qed.

Lemma non_200_is_authentication_error_witness :
  Forall
    (fun op =>
       call (always unauthorized) "10.0.0.5" "Admin" "Admin" op [] =
       (Raise AuthenticationException, [request_of "10.0.0.5" "Admin" "Admin" op]))
    sample_operations.
Proof.
  unfold sample_operations.
  repeat (apply Forall_cons;
          [apply (non_200_is_authentication_error (always unauthorized) "10.0.0.5"
                    "Admin" "Admin" _ [] unauthorized);
           [reflexivity | discriminate] |]).
  apply Forall_nil.
Defined.

(** C3, as the code has it: an authenticated operation issues its request,
    and a failure that aiohttp reports as a [ClientError], on the request or
    while the body of a 200 response is read, makes the operation raise
    [UnexpectedException] with that error as its cause. *)
Theorem client_error_is_wrapped
    (net : request -> result response) (ip_address username password : str)
    (op : operation) (log : trace) (e : exn) :
  isinstance_ClientError e = true ->
  (net (request_of ip_address username password op) = Raise e \/
   exists resp : response,
     net (request_of ip_address username password op) = Ok resp /\
     status resp = 200%Z /\ awaited_body op resp = Raise e) ->
  call net ip_address username password op log =
  (Raise (UnexpectedException e),
   (log ++ [request_of ip_address username password op])%list).
Proof.
  intros Hcls Hfail.
  rewrite call_contract. unfold outcome, translate.
  destruct Hfail as [Hnet | (resp & Hnet & Hstatus & Hbody)]; rewrite Hnet.
  - now rewrite Hcls.
  - rewrite Hstatus, Hbody. cbn. now rewrite Hcls.
Qed.

Lemma client_error_is_wrapped_witness :
  Forall
    (fun op =>
       call (failing (ClientError ClientConnectorError)) "10.0.0.5" "Admin" "Admin" op [] =
       (Raise (UnexpectedException (ClientError ClientConnectorError)),
        [request_of "10.0.0.5" "Admin" "Admin" op]))
    sample_operations.
Proof.
  unfold sample_operations.
  repeat (apply Forall_cons;
          [apply (client_error_is_wrapped (failing (ClientError ClientConnectorError))
                    "10.0.0.5" "Admin" "Admin" _ [] (ClientError ClientConnectorError));
           [reflexivity | left; reflexivity] |]).
  apply Forall_nil.
Defined.

(** C3 as stated fails: a 200 response whose body is not JSON makes
    [get_devices] raise [json.JSONDecodeError] itself, which is no
    [UnexpectedException]. *)
Lemma malformed_body_is_not_wrapped :
  json garbled = Raise JSONDecodeError /\
  fst (call (always garbled) "10.0.0.5" "Admin" "Admin" GetDevices []) =
    Raise JSONDecodeError /\
  forall cause : exn,
    fst (call (always garbled) "10.0.0.5" "Admin" "Admin" GetDevices []) <>
    Raise (UnexpectedException cause).
Proof.
  repeat split. intros cause H. discriminate H.
Qed.

(** C4, as the code has it: every call issues exactly one request; no
    [ClientError] leaves an operation; a status other than 200 makes the
    call raise [AuthenticationException]; a [ClientError] raised below the
    translation makes it raise the [UnexpectedException] that carries it; and
    when nothing but [ClientError]s is raised below the translation, a
    failing call raises one of these two and nothing else. *)
Theorem failures_are_translated
    (net : request -> result response) (ip_address username password : str)
    (op : operation) (log : trace) :
  exists req : request,
    req = request_of ip_address username password op /\
    snd (call net ip_address username password op log) = (log ++ [req])%list /\
    (forall e : exn,
       fst (call net ip_address username password op log) = Raise e ->
       isinstance_ClientError e = false) /\
    (forall resp : response,
       net req = Ok resp -> status resp <> 200%Z ->
       fst (call net ip_address username password op log) =
       Raise AuthenticationException) /\
    (forall cause : exn,
       fault op (net req) = Some cause -> isinstance_ClientError cause = true ->
       fst (call net ip_address username password op log) =
       Raise (UnexpectedException cause)) /\
    ((forall e : exn, fault op (net req) = Some e -> isinstance_ClientError e = true) ->
     forall e : exn,
       fst (call net ip_address username password op log) = Raise e ->
       e = AuthenticationException \/
       exists cause : exn, e = UnexpectedException cause /\ fault op (net req) = Some cause).
Proof.
  exists (request_of ip_address username password op).
  rewrite call_contract. cbn [fst snd].
  split; [reflexivity|]. split; [reflexivity|].
  unfold outcome, fault.
  destruct (net (request_of ip_address username password op)) as [resp|e0].
  - destruct (Z.eqb_spec (status resp) 200) as [H200|H200]; cbn [negb].
    + destruct (awaited_body op resp) as [v|e0].
      * destruct (returned op v) as [x|e0].
        -- repeat split.
           ++ intros e He. discriminate He.
           ++ intros resp' Hresp Hstatus. injection Hresp as <-. contradiction.
           ++ intros cause Hcause. discriminate Hcause.
           ++ intros _ e He. discriminate He.
        -- repeat split.
           ++ intros e He. injection He as <-. apply translate_not_ClientError.
           ++ intros resp' Hresp Hstatus. injection Hresp as <-. contradiction.
           ++ intros cause Hcause Hcls. injection Hcause as <-.
              unfold translate. now rewrite Hcls.
           ++ intros Hall e He. injection He as <-. right. exists e0.
              unfold translate. now rewrite (Hall e0 eq_refl).
      * repeat split.
        -- intros e He. injection He as <-. apply translate_not_ClientError.
        -- intros resp' Hresp Hstatus. injection Hresp as <-. contradiction.
        -- intros cause Hcause Hcls. injection Hcause as <-.
           unfold translate. now rewrite Hcls.
        -- intros Hall e He. injection He as <-. right. exists e0.
           unfold translate. now rewrite (Hall e0 eq_refl).
    + repeat split.
      * intros e He. injection He as <-. reflexivity.
      * intros cause Hcause. discriminate Hcause.
      * intros _ e He. injection He as <-. now left.
  - repeat split.
    + intros e He. injection He as <-. apply translate_not_ClientError.
    + intros resp Hresp. discriminate Hresp.
    + intros cause Hcause Hcls. injection Hcause as <-.
      unfold translate. now rewrite Hcls.
    + intros Hall e He. injection He as <-. right. exists e0.
      unfold translate. now rewrite (Hall e0 eq_refl).
Qed.

(** The two translations at work on one call of each operation: a 401 and
    a refused connection. *)
Example translations_on_sample_operations :
  Forall
    (fun op =>
       call (always unauthorized) "10.0.0.5" "Admin" "Admin" op [] =
         (Raise AuthenticationException, [request_of "10.0.0.5" "Admin" "Admin" op]) /\
       call (failing (ClientError ClientConnectorError)) "10.0.0.5" "Admin" "Admin" op [] =
         (Raise (UnexpectedException (ClientError ClientConnectorError)),
          [request_of "10.0.0.5" "Admin" "Admin" op]))
    sample_operations.
Proof. unfold sample_operations. repeat constructor. Qed.

(** C4 as stated fails: a 200 response whose JSON object has no
    [available_types] field makes [get_available_inputs] raise [KeyError],
    which is neither of the two library kinds. *)
Lemma missing_field_raises_key_error :
  fst (call (always (ok_json (VDict []) "{}")) "10.0.0.5" "Admin" "Admin"
         (GetAvailableInputs "1") []) =
  Raise (KeyError (VStr "available_types")).
Proof. reflexivity. Qed.

(** ** Available input types *)

(** C8: on a 200 response whose JSON body is an object with an
    [available_types] field, [get_available_inputs] returns the value of
    that field. *)
Theorem available_inputs_unwrapped
    (net : request -> result response) (ip_address username password input_id : str)
    (log : trace) (req : request) (resp : response) (items : list (str * value))
    (v : value) :
  snd (get_available_inputs net ip_address username password input_id log) =
    (log ++ [req])%list ->
  net req = Ok resp ->
  status resp = 200%Z ->
  json resp = Ok (VDict items) ->
  dict_get items "available_types" = Some v ->
  fst (get_available_inputs net ip_address username password input_id log) = Ok v.
Proof.
  intros Hreq Hnet Hstatus Hjson Hfield.
  change (get_available_inputs net ip_address username password input_id)
    with (call net ip_address username password (GetAvailableInputs input_id)) in *.
  apply issued_request in Hreq. subst req.
  rewrite call_contract. cbn [fst]. unfold outcome. rewrite Hnet, Hstatus.
  cbn. rewrite Hjson. cbn. now rewrite Hfield.
Qed.

Lemma available_inputs_unwrapped_witness :
  fst (get_available_inputs
         (always (ok_json (VDict [("available_types",
                                   VList [VStr "bluetooth"; VStr "optical"])]) ""))
         "10.0.0.5" "Admin" "Admin" "4" []) =
  Ok (VList [VStr "bluetooth"; VStr "optical"]).
Proof.
  apply (available_inputs_unwrapped
           (always (ok_json (VDict [("available_types",
                                     VList [VStr "bluetooth"; VStr "optical"])]) ""))
           "10.0.0.5" "Admin" "Admin" "4" []
           (request_of "10.0.0.5" "Admin" "Admin" (GetAvailableInputs "4"))
           (ok_json (VDict [("available_types",
                             VList [VStr "bluetooth"; VStr "optical"])]) "")
           [("available_types", VList [VStr "bluetooth"; VStr "optical"])]).
  - reflexivity.
  - reflexivity.
  - reflexivity.
  - reflexivity.
  - reflexivity.
Defined.

(** ** The connectivity probe *)

Section Probe.

Variable net : request -> result response.

(** The probe issues one unauthenticated GET on [/api/]. *)
Lemma probe_trace (ip_address : str) (log : trace) :
  snd (can_connect_to_juke net ip_address log) = (log ++ [probe_request ip_address])%list.
Proof.
  run_probe.
  destruct (net _) as [resp|e]; [|now destruct (isinstance_ClientError e)].
  destruct (json resp) as [contents|e]; [|now destruct (isinstance_ClientError e)].
  destruct (getitem_str contents "versions") as [versions|e];
    [|now destruct (isinstance_ClientError e)].
  destruct (getitem_0 versions) as [first|e]; [|now destruct (isinstance_ClientError e)].
  destruct (call_is_juke_compatible first) as [b|e];
    [reflexivity | now destruct (isinstance_ClientError e)].
Qed.

(** A [ClientError] on the request or on reading the body gives [False]. *)
Lemma probe_client_error (ip_address : str) (log : trace) (e : exn) :
  isinstance_ClientError e = true ->
  (net (probe_request ip_address) = Raise e \/
   exists resp : response,
     net (probe_request ip_address) = Ok resp /\ json resp = Raise e) ->
  fst (can_connect_to_juke net ip_address log) = Ok false.
Proof.
  intros Hcls [Hnet | (resp & Hnet & Hjson)]; unfold probe_request in Hnet;
    run_probe; rewrite Hnet.
  - now rewrite Hcls.
  - rewrite Hjson. now rewrite Hcls.
Qed.

(** With a first version that is a string the probe answers by it. *)
Lemma probe_first_version (ip_address : str) (log : trace) (resp : response)
    (items : list (str * value)) (s : str) (rest : list value) :
  net (probe_request ip_address) = Ok resp ->
  json resp = Ok (VDict items) ->
  dict_get items "versions" = Some (VList (VStr s :: rest)) ->
  can_connect_to_juke net ip_address log =
  (Ok (is_juke_compatible s), (log ++ [probe_request ip_address])%list).
Proof.
  intros Hnet Hjson Hversions. unfold probe_request in Hnet. run_probe.
  rewrite Hnet, Hjson. cbn [getitem_str]. rewrite Hversions. reflexivity.
Qed.

(** Replacing the statuses of the responses changes nothing. *)
Lemma probe_status_blind (f : response -> Z) (ip_address : str) (log : trace) :
  can_connect_to_juke (with_status f net) ip_address log =
  can_connect_to_juke net ip_address log.
Proof.
  run_probe. unfold with_status.
  destruct (net _) as [resp|e]; reflexivity.
Qed.

End Probe.

(** C2, as the code has it: the probe issues one request; a failure that
    aiohttp reports as a [ClientError] gives [False]; a body that decodes to
    an object whose [versions] is an array with a string first gives the
    compatibility of that string, true exactly when it begins with [v2.];
    so [v2.1] gives [True], [v1.0] gives [False] and a refused connection
    gives [False]. *)
Theorem probe_answers (net : request -> result response) (ip_address : str)
    (log : trace) :
  snd (can_connect_to_juke net ip_address log) = (log ++ [probe_request ip_address])%list /\
  (forall e : exn,
     isinstance_ClientError e = true ->
     (net (probe_request ip_address) = Raise e \/
      exists resp : response,
        net (probe_request ip_address) = Ok resp /\ json resp = Raise e) ->
     fst (can_connect_to_juke net ip_address log) = Ok false) /\
  (forall (resp : response) (items : list (str * value)) (s : str) (rest : list value),
     net (probe_request ip_address) = Ok resp ->
     json resp = Ok (VDict items) ->
     dict_get items "versions" = Some (VList (VStr s :: rest)) ->
     fst (can_connect_to_juke net ip_address log) = Ok (is_juke_compatible s) /\
     (is_juke_compatible s = true <-> exists tail : str, s = "v2." ++ tail)) /\
  fst (can_connect_to_juke (always (ok_json (versions_body ["v2.1"]) "")) ip_address log)
    = Ok true /\
  fst (can_connect_to_juke (always (ok_json (versions_body ["v1.0"]) "")) ip_address log)
    = Ok false /\
  fst (can_connect_to_juke (failing (ClientError ClientConnectorError)) ip_address log)
    = Ok false.
Proof.
  split; [apply probe_trace|].
  split; [intros e; apply probe_client_error|].
  split.
  - intros resp items s rest Hnet Hjson Hversions. split.
    + now rewrite (probe_first_version net ip_address log resp items s rest).
    + exact (startswith_spec (api_version ++ ".") s).
  - repeat split.
Qed.

(** C2 as stated fails: the probe raises.  On a 200 response that
    advertises no version it raises [IndexError], and on one without
    [versions] it raises [KeyError]. *)
Lemma probe_raises :
  fst (can_connect_to_juke (always (ok_json (versions_body []) "")) "10.0.0.5" []) =
    Raise IndexError /\
  fst (can_connect_to_juke (always (ok_json (VDict []) "{}")) "10.0.0.5" []) =
    Raise (KeyError (VStr "versions")).
Proof. split; reflexivity. Qed.

(** C10: the probe does not look at the status.  When the body decodes to
    an object whose [versions] is an array with a string first, the answer
    is the compatibility of that string whatever the statuses are, and
    replacing the statuses never changes the outcome of the probe. *)
Theorem probe_ignores_status (net : request -> result response) (ip_address : str)
    (log : trace) (resp : response) (items : list (str * value)) (s : str)
    (rest : list value) (f : response -> Z) :
  net (probe_request ip_address) = Ok resp ->
  json resp = Ok (VDict items) ->
  dict_get items "versions" = Some (VList (VStr s :: rest)) ->
  can_connect_to_juke net ip_address log =
    (Ok (is_juke_compatible s), (log ++ [probe_request ip_address])%list) /\
  can_connect_to_juke (with_status f net) ip_address log =
    (Ok (is_juke_compatible s), (log ++ [probe_request ip_address])%list).
Proof.
  intros Hnet Hjson Hversions.
  rewrite probe_status_blind.
  split; exact (probe_first_version net ip_address log resp items s rest Hnet Hjson Hversions).
Qed.

Lemma probe_ignores_status_witness :
  can_connect_to_juke (always (ok_json (versions_body ["v2.1"; "v1.0"]) "")) "10.0.0.5" [] =
    (Ok true, [probe_request "10.0.0.5"]) /\
  can_connect_to_juke
    (with_status (fun _ => 503%Z) (always (ok_json (versions_body ["v2.1"; "v1.0"]) "")))
    "10.0.0.5" [] =
    (Ok true, [probe_request "10.0.0.5"]).
Proof.
  apply (probe_ignores_status (always (ok_json (versions_body ["v2.1"; "v1.0"]) ""))
           "10.0.0.5" [] (ok_json (versions_body ["v2.1"; "v1.0"]) "")
           [("versions", VList [VStr "v2.1"; VStr "v1.0"])] "v2.1" [VStr "v1.0"]
           (fun _ => 503%Z)).
  - reflexivity.
  - reflexivity.
  - reflexivity.
Defined.

(** ** JSON arrays of strings *)

Module JsonFacts.
Import JsonText.

Lemma append_assoc (a b c : string) : (a ++ b) ++ c = a ++ (b ++ c).
Proof. induction a as [|x a IH]; cbn; [reflexivity | now rewrite IH]. Qed.

Lemma length_append (a b : string) :
  String.length (a ++ b) = String.length a + String.length b.
Proof. induction a as [|x a IH]; cbn; [reflexivity | now rewrite IH]. Qed.

Lemma push_some (p : piece) (r : option (list piece * string)) (ps : list piece)
    (rest : string) :
  push p r = Some (ps, rest) ->
  exists ps', ps = p :: ps' /\ r = Some (ps', rest).
Proof.
  destruct r as [[ps' rest']|]; cbn; [|discriminate].
  intros H. injection H as <- <-. now exists ps'.
Qed.

Lemma utf8_of_code_length (n : N) : String.length (utf8_of_code n) <= 4.
Proof.
  unfold utf8_of_code.
  destruct (n <? 128)%N; [cbn; lia|].
  destruct (n <? 2048)%N; [cbn; lia|].
  destruct (n <? 65536)%N; cbn; lia.
Qed.

Lemma assemble_unit_unit (hi lo : N) (ps : list piece) :
  assemble (Unit16 hi :: Unit16 lo :: ps) =
  if is_high_surrogate hi && is_low_surrogate lo then
    utf8_of_code (65536 + (hi - 55296) * 1024 + (lo - 56320)) ++ assemble ps
  else utf8_of_code hi ++ assemble (Unit16 lo :: ps).
Proof. reflexivity. Qed.

Lemma assemble_unit_byte (hi : N) (c : ascii) (ps : list piece) :
  assemble (Unit16 hi :: Byte c :: ps) = utf8_of_code hi ++ assemble (Byte c :: ps).
Proof. reflexivity. Qed.

Lemma assemble_length_step (ps : list piece) :
  String.length (assemble ps) <= weight ps /\
  forall p, String.length (assemble (p :: ps)) <= weight (p :: ps).
Proof.
  induction ps as [|q ps [IH1 IH2]].
  - split; [cbn; lia|]. intros [c|n]; cbn [assemble weight].
    + cbn. lia.
    + rewrite length_append. pose proof (utf8_of_code_length n). cbn. lia.
  - split; [apply IH2|]. intros [c|hi].
    + specialize (IH2 q). cbn [assemble weight String.length] in *. lia.
    + destruct q as [c|lo].
      * rewrite assemble_unit_byte, length_append.
        pose proof (utf8_of_code_length hi). specialize (IH2 (Byte c)).
        cbn [weight] in *. lia.
      * rewrite assemble_unit_unit.
        destruct (is_high_surrogate hi && is_low_surrogate lo);
          rewrite length_append.
        -- pose proof (utf8_of_code_length (65536 + (hi - 55296) * 1024 + (lo - 56320))).
           cbn [weight]. lia.
        -- pose proof (utf8_of_code_length hi). specialize (IH2 (Unit16 lo)).
           cbn [weight] in *. lia.
Qed.

Lemma assemble_length (ps : list piece) : String.length (assemble ps) <= weight ps.
Proof. apply assemble_length_step. Qed.

Lemma assemble_pieces_of (s : string) : assemble (pieces_of s) = s.
Proof. induction s as [|c s IH]; cbn; [reflexivity | now rewrite IH]. Qed.

(** A scanned literal is at least as long as what it denotes, plus its
    closing quote. *)
Lemma scan_string_length_upto (n : nat) :
  forall (x : string) (ps : list piece) (rest : string),
    String.length x <= n ->
    scan_string x = Some (ps, rest) ->
    weight ps + 1 + String.length rest <= String.length x.
Proof.
  induction n as [|n IH]; intros x ps rest Hn Hscan.
  - destruct x; [discriminate Hscan | cbn in Hn; lia].
  - destruct x as [|c r]; [discriminate Hscan|].
    cbn [scan_string] in Hscan. cbn [String.length] in *.
    destruct (Ascii.eqb c dquote).
    { injection Hscan as <- <-. cbn. lia. }
    destruct (Ascii.eqb c backslash).
    { destruct r as [|e r1]; [discriminate Hscan|].
      cbn [String.length] in *.
      destruct (simple_escape e).
      { apply push_some in Hscan as (ps' & -> & Hscan).
        apply IH in Hscan; [cbn [weight]; lia | lia]. }
      destruct (Ascii.eqb e "u"); [|discriminate Hscan].
      destruct r1 as [|h1 [|h2 [|h3 [|h4 r2]]]]; try discriminate Hscan.
      cbn [String.length] in *.
      destruct (hex4 h1 h2 h3 h4); [|discriminate Hscan].
      apply push_some in Hscan as (ps' & -> & Hscan).
      apply IH in Hscan; [cbn [weight]; lia | lia]. }
    destruct (is_control c); [discriminate Hscan|].
    apply push_some in Hscan as (ps' & -> & Hscan).
    apply IH in Hscan; [cbn [weight]; lia | lia].
Qed.

Lemma scan_string_length (x : string) (ps : list piece) (rest : string) :
  scan_string x = Some (ps, rest) ->
  weight ps + 1 + String.length rest <= String.length x.
Proof. apply (scan_string_length_upto (String.length x)). lia. Qed.

(** When nothing was lost in scanning, the literal spells its value out:
    it has no escape, so the value has no quote and no backslash. *)
Lemma scan_string_tight (x : string) :
  forall (ps : list piece) (rest : string),
    scan_string x = Some (ps, rest) ->
    weight ps + 1 + String.length rest = String.length x ->
    x = assemble ps ++ String dquote rest /\ is_plain (assemble ps) = true.
Proof.
  induction x as [|c r IH]; intros ps rest Hscan Hlen; [discriminate Hscan|].
  cbn [scan_string] in Hscan. cbn [String.length] in Hlen.
  destruct (Ascii.eqb_spec c dquote) as [->|Hq].
  { injection Hscan as <- <-. now split. }
  destruct (Ascii.eqb_spec c backslash) as [->|Hb].
  { exfalso.
    destruct r as [|e r1]; [discriminate Hscan|].
    cbn [String.length] in Hlen.
    destruct (simple_escape e).
    { apply push_some in Hscan as (ps' & -> & Hscan).
      apply scan_string_length in Hscan. cbn [weight] in Hlen. lia. }
    destruct (Ascii.eqb e "u"); [|discriminate Hscan].
    destruct r1 as [|h1 [|h2 [|h3 [|h4 r2]]]]; try discriminate Hscan.
    cbn [String.length] in Hlen.
    destruct (hex4 h1 h2 h3 h4); [|discriminate Hscan].
    apply push_some in Hscan as (ps' & -> & Hscan).
    apply scan_string_length in Hscan. cbn [weight] in Hlen. lia. }
  destruct (is_control c) eqn:Hc; [discriminate Hscan|].
  apply push_some in Hscan as (ps' & -> & Hscan).
  cbn [weight] in Hlen.
  destruct (IH ps' rest Hscan) as [Hx Hplain]; [lia|].
  cbn [assemble is_plain]. split.
  - cbn [append]. f_equal. exact Hx.
  - rewrite Hplain, Hc.
    apply Ascii.eqb_neq in Hq, Hb. now rewrite Hq, Hb.
Qed.

(** A plain string between quotes scans to itself. *)
Lemma scan_string_plain (s rest : string) :
  is_plain s = true ->
  scan_string (s ++ String dquote rest) = Some (pieces_of s, rest).
Proof.
  induction s as [|c s IH]; intros Hplain.
  - reflexivity.
  - cbn [is_plain] in Hplain.
    apply andb_prop in Hplain as [Hplain Hs].
    apply andb_prop in Hplain as [Hplain Hc].
    apply andb_prop in Hplain as [Hq Hb].
    apply negb_true_iff in Hq, Hb, Hc.
    cbn [append scan_string pieces_of]. rewrite Hq, Hb, Hc, (IH Hs). reflexivity.
Qed.

Lemma is_plain_no_quote (s : string) :
  is_plain s = true -> occurs dquote s = false /\ occurs backslash s = false.
Proof.
  induction s as [|c s IH]; intros Hplain; [now split|].
  cbn [is_plain] in Hplain.
  apply andb_prop in Hplain as [Hplain Hs].
  apply andb_prop in Hplain as [Hplain _].
  apply andb_prop in Hplain as [Hq Hb].
  apply negb_true_iff in Hq, Hb.
  destruct (IH Hs) as [IHq IHb].
  cbn [occurs]. rewrite IHq, IHb.
  rewrite (Ascii.eqb_sym dquote c), (Ascii.eqb_sym backslash c), Hq, Hb. now split.
Qed.

Lemma skip_ws_length (s : string) : String.length (skip_ws s) <= String.length s.
Proof.
  induction s as [|c s IH]; cbn [skip_ws]; [lia|].
  destruct (is_ws c); cbn [String.length]; lia.
Qed.

Lemma elements_not_nil (fuel : nat) (s : string) : elements fuel s <> Some [].
Proof.
  destruct fuel as [|fuel]; cbn [elements]; [discriminate|].
  destruct (skip_ws s) as [|q r]; [discriminate|].
  destruct (Ascii.eqb q dquote); [|discriminate].
  destruct (scan_string r) as [[ps r1]|]; [|discriminate].
  destruct (skip_ws r1) as [|d r2]; [discriminate|].
  destruct (Ascii.eqb d "]").
  - destruct (all_ws r2); discriminate.
  - destruct (Ascii.eqb d ","); [|discriminate].
    destruct (elements fuel r2); discriminate.
Qed.

(** Fuel beyond the length of the text is never spent: the reading does
    not depend on it. *)
Lemma elements_fuel (f1 : nat) :
  forall (f2 : nat) (s : string),
    String.length s < f1 -> String.length s < f2 ->
    elements f1 s = elements f2 s.
Proof.
  induction f1 as [|f1 IH]; intros f2 s H1 H2; [lia|].
  destruct f2 as [|f2]; [lia|].
  cbn [elements].
  pose proof (skip_ws_length s) as Hs.
  destruct (skip_ws s) as [|q r]; [reflexivity|].
  destruct (Ascii.eqb q dquote); [|reflexivity].
  destruct (scan_string r) as [[ps r1]|] eqn:Hscan; [|reflexivity].
  apply scan_string_length in Hscan.
  pose proof (skip_ws_length r1) as Hr1.
  destruct (skip_ws r1) as [|d r2]; [reflexivity|].
  destruct (Ascii.eqb d "]"); [reflexivity|].
  destruct (Ascii.eqb d ","); [|reflexivity].
  cbn [String.length] in *.
  rewrite (IH f2 r2); [reflexivity | lia | lia].
Qed.

(** The text [["s"]] reads as the array of [s] only if [s] is plain. *)
Lemma elements_single (fuel : nat) (s : string) :
  elements fuel (String dquote (s ++ String dquote "]")) = Some [s] ->
  is_plain s = true.
Proof.
  destruct fuel as [|fuel]; [discriminate|].
  cbn [elements].
  change (skip_ws (String dquote (s ++ String dquote "]")))
    with (String dquote (s ++ String dquote "]")).
  cbv beta iota. rewrite Ascii.eqb_refl.
  destruct (scan_string (s ++ String dquote "]")) as [[ps r1]|] eqn:Hscan; [|discriminate].
  pose proof (skip_ws_length r1) as Hr1.
  destruct (skip_ws r1) as [|d r2]; [discriminate|].
  assert (Hvalue : forall o : option (list str),
             (o = Some [assemble ps] \/ (exists tl, o = option_map (cons (assemble ps)) tl
                                                    /\ tl <> Some [])) ->
             o = Some [s] -> assemble ps = s).
  { intros o [-> | (tl & -> & Htl)] Ho.
    - now injection Ho.
    - destruct tl as [[|y tl]|]; cbn in Ho; try discriminate Ho; congruence. }
  intros Hres.
  assert (Hs : assemble ps = s).
  { destruct (Ascii.eqb d "]").
    - destruct (all_ws r2); [|discriminate Hres].
      apply (Hvalue _ (or_introl eq_refl) Hres).
    - destruct (Ascii.eqb d ","); [|discriminate Hres].
      refine (Hvalue _ (or_intror _) Hres).
      exists (elements fuel r2). split; [reflexivity | apply elements_not_nil]. }
  pose proof (scan_string_length _ _ _ Hscan) as Hlen.
  pose proof (assemble_length ps) as Hw.
  rewrite length_append in Hlen. cbn [String.length] in Hlen, Hr1.
  rewrite Hs in Hw.
  destruct (scan_string_tight _ ps r1 Hscan) as [_ Hplain].
  - rewrite length_append. cbn [String.length]. lia.
  - now rewrite Hs in Hplain.
Qed.

(** The text the module builds around a non-empty identifier. *)
Lemma bracketed_quoted (s : str) :
  "[" ++ quoted s ++ "]" = String "[" (String dquote (s ++ String dquote "]")).
Proof.
  unfold quoted. cbn [append]. now rewrite append_assoc.
Qed.

(** Reading the text of a quoted identifier. *)
Lemma loads_bracketed (s : str) :
  loads_string_array ("[" ++ quoted s ++ "]") =
  elements (S (String.length (String dquote (s ++ String dquote "]"))))
    (String dquote (s ++ String dquote "]")).
Proof. now rewrite bracketed_quoted. Qed.

Lemma loads_plain (s : str) :
  is_plain s = true -> loads_string_array ("[" ++ quoted s ++ "]") = Some [s].
Proof.
  intros Hplain. rewrite loads_bracketed. cbn [elements].
  change (skip_ws (String dquote (s ++ String dquote "]")))
    with (String dquote (s ++ String dquote "]")).
  cbv beta iota.
  rewrite Ascii.eqb_refl, (scan_string_plain s "]" Hplain), assemble_pieces_of.
  reflexivity.
Qed.

Lemma loads_not_plain (s : str) :
  loads_string_array ("[" ++ quoted s ++ "]") = Some [s] -> is_plain s = true.
Proof. rewrite loads_bracketed. apply elements_single. Qed.

End JsonFacts.

(** ** The body of [set_zone_input] *)

Lemma zone_input_trace (net : request -> result response)
    (ip_address username password zone_id : str) (input : option str) (log : trace) :
  snd (set_zone_input net ip_address username password zone_id input log) =
  (log ++ [zone_input_request ip_address username password zone_id
             match input with
             | None | Some EmptyString => "[]"%string
             | Some s => ("[" ++ quoted s ++ "]")%string
             end])%list.
Proof.
  change (set_zone_input net ip_address username password zone_id input)
    with (call net ip_address username password (SetZoneInput zone_id input)).
  rewrite call_contract. reflexivity.
Qed.

(** C7, as the code has it: [set_zone_input] sends the text [[]] when the
    input is [None] or empty, which reads as the JSON array of no element,
    and otherwise the input between [["] and ["]], which reads as the JSON
    array of exactly that input when the input has no double quote, no
    backslash and no control character. *)
Theorem zone_input_body (net : request -> result response)
    (ip_address username password zone_id : str) (input : option str) (log : trace) :
  exists body : str,
    snd (set_zone_input net ip_address username password zone_id input log) =
      (log ++ [zone_input_request ip_address username password zone_id body])%list /\
    (input = None \/ input = Some EmptyString ->
     body = "[]" /\ JsonText.loads_string_array body = Some []) /\
    (forall s : str,
       input = Some s -> s <> EmptyString ->
       body = "[" ++ quoted s ++ "]" /\
       (is_plain s = true -> JsonText.loads_string_array body = Some [s])).
Proof.
  eexists. split; [apply zone_input_trace|]. split.
  - intros [-> | ->]; now split.
  - intros s -> Hs. destruct s as [|c s]; [contradiction|].
    split; [reflexivity | apply JsonFacts.loads_plain].
Qed.

Example zone_input_none :
  snd (set_zone_input (always (ok_text "OK")) "10.0.0.5" "Admin" "Admin" "3" None []) =
  [zone_input_request "10.0.0.5" "Admin" "Admin" "3" "[]"].
Proof. reflexivity. Qed.

Example zone_input_aux1 :
  snd (set_zone_input (always (ok_text "OK")) "10.0.0.5" "Admin" "Admin" "3" (Some "aux1") []) =
    [zone_input_request "10.0.0.5" "Admin" "Admin" "3" ("[" ++ quoted "aux1" ++ "]")] /\
  JsonText.loads_string_array ("[" ++ quoted "aux1" ++ "]") = Some ["aux1"].
Proof. split; reflexivity. Qed.

(** C7 as stated fails: for the input a, quote, b the text sent is not a
    JSON array at all. *)
Lemma quote_in_input_is_no_array :
  snd (set_zone_input (always (ok_text "OK")) "10.0.0.5" "Admin" "Admin" "3"
         (Some name_with_quote) []) =
    [zone_input_request "10.0.0.5" "Admin" "Admin" "3"
       ("[" ++ quoted name_with_quote ++ "]")] /\
  JsonText.loads_string_array ("[" ++ quoted name_with_quote ++ "]") = None.
Proof. split; reflexivity. Qed.

(** C9, as the code has it: for a non-empty input the text sent is the
    input, as it is, between [["] and ["]]; when the input has a double
    quote or a backslash this text does not read as the JSON array of that
    input. *)
Theorem zone_input_verbatim (net : request -> result response)
    (ip_address username password zone_id : str) (s : str) (log : trace) :
  s <> EmptyString ->
  snd (set_zone_input net ip_address username password zone_id (Some s) log) =
    (log ++ [zone_input_request ip_address username password zone_id
               (String "[" (String dquote (s ++ String dquote "]")))])%list /\
  (occurs dquote s = true \/ occurs backslash s = true ->
   JsonText.loads_string_array (String "[" (String dquote (s ++ String dquote "]"))) <>
   Some [s]).
Proof.
  intros Hs. rewrite <- JsonFacts.bracketed_quoted. split.
  - rewrite zone_input_trace. destruct s as [|c s]; [contradiction | reflexivity].
  - intros Hocc Hloads.
    apply JsonFacts.loads_not_plain, JsonFacts.is_plain_no_quote in Hloads.
    destruct Hloads as [Hq Hb], Hocc as [Hocc | Hocc]; congruence.
Qed.

Lemma zone_input_verbatim_witness :
  snd (set_zone_input (always (ok_text "OK")) "10.0.0.5" "Admin" "Admin" "3"
         (Some name_with_quote) []) =
    [zone_input_request "10.0.0.5" "Admin" "Admin" "3"
       (String "[" (String dquote (name_with_quote ++ String dquote "]")))] /\
  (occurs dquote name_with_quote = true \/ occurs backslash name_with_quote = true ->
   JsonText.loads_string_array
     (String "[" (String dquote (name_with_quote ++ String dquote "]"))) <>
   Some [name_with_quote]).
Proof.
  apply (zone_input_verbatim (always (ok_text "OK")) "10.0.0.5" "Admin" "Admin" "3"
           name_with_quote []).
  discriminate.
Defined.

(** C9 as stated fails: the input of two backslashes has a backslash, and
    the text sent for it is a well-formed JSON array of one string (the
    string of one backslash). *)
Lemma escaped_backslash_is_well_formed :
  occurs backslash two_backslashes = true /\
  snd (set_zone_input (always (ok_text "OK")) "10.0.0.5" "Admin" "Admin" "3"
         (Some two_backslashes) []) =
    [zone_input_request "10.0.0.5" "Admin" "Admin" "3"
       (String "[" (String dquote (two_backslashes ++ String dquote "]")))] /\
  JsonText.loads_string_array
    (String "[" (String dquote (two_backslashes ++ String dquote "]"))) =
  Some [String backslash EmptyString].
Proof. repeat split. Qed.

(** * Further properties of the module *)

(** ** Requests *)

(** X1: whatever the device answers, an authenticated operation issues
    exactly one request, and it is the one of the table: GET, or PUT for the
    two mutations, on [http://<ip>/api/v2/...] with the identifier put into
    the path as it is, the bearer header, and the payload of the mutation. *)
Theorem operation_issues_table_request
    (net : request -> result response) (ip_address username password : str)
    (op : operation) (log : trace) :
  snd (call net ip_address username password op log) =
    (log ++ [request_of ip_address username password op])%list /\
  startswith (req_url (request_of ip_address username password op))
    ("http://" ++ ip_address ++ "/api/v2/") = true /\
  (req_verb (request_of ip_address username password op) = PUT <->
   exists zone_id, (exists volume, op = SetZoneVolume zone_id volume) \/
                   (exists input, op = SetZoneInput zone_id input)).
Proof.
  split; [now rewrite call_contract|]. split.
  - apply startswith_spec.
    destruct op; cbn [request_of req_url]; eexists;
      rewrite !JsonFacts.append_assoc; cbn [append]; reflexivity.
  - destruct op as [| | | | | | |z vol|z inp| | |]; cbn [request_of req_verb]; split;
      try discriminate;
      try (intros (zid & [(vol' & H) | (inp' & H)]); discriminate H);
      try (intros _; reflexivity).
    + intros _. exists z. left. now exists vol.
    + intros _. exists z. right. now exists inp.
Qed.

(** ** Outcomes of the authenticated operations *)

(** X2: on a 200 response whose body is read without error, every
    operation but [get_available_inputs] issues its request and returns the
    body as it was read: the decoded JSON for a read, the text for a
    mutation. *)
Theorem success_returns_body
    (net : request -> result response) (ip_address username password : str)
    (op : operation) (log : trace) (resp : response) (v : value) :
  net (request_of ip_address username password op) = Ok resp ->
  status resp = 200%Z ->
  awaited_body op resp = Ok v ->
  (forall input_id, op <> GetAvailableInputs input_id) ->
  call net ip_address username password op log =
  (Ok v, (log ++ [request_of ip_address username password op])%list).
Proof.
  intros Hnet Hstatus Hbody Hop.
  rewrite call_contract. unfold outcome. rewrite Hnet, Hstatus, Hbody.
  destruct op; try reflexivity.
  now elim (Hop input_id).
Qed.

Lemma success_returns_body_witness :
  call (always (ok_text "OK")) "10.0.0.5" "Admin" "Admin" (SetZoneVolume "3" 25) [] =
    (Ok (VStr "OK"), [request_of "10.0.0.5" "Admin" "Admin" (SetZoneVolume "3" 25)]) /\
  Forall
    (fun op =>
       call (always (ok_json (VList [VStr "1"; VStr "2"]) "")) "10.0.0.5" "Admin" "Admin"
         op [] =
       (Ok (VList [VStr "1"; VStr "2"]), [request_of "10.0.0.5" "Admin" "Admin" op]))
    [GetDevices; GetDeviceConnectionInfo "1"; GetDeviceAttributes "1"; GetDeviceConfig "1";
     GetDeviceMetrics "1"; GetZones; GetZoneConfig "3"; GetInputs; GetInputConfig "4"].
Proof.
  split.
  - apply (success_returns_body (always (ok_text "OK")) "10.0.0.5" "Admin" "Admin"
             (SetZoneVolume "3" 25) [] (ok_text "OK"));
      [reflexivity | reflexivity | reflexivity | discriminate].
  - repeat (apply Forall_cons;
            [apply (success_returns_body
                      (always (ok_json (VList [VStr "1"; VStr "2"]) ""))
                      "10.0.0.5" "Admin" "Admin" _ []
                      (ok_json (VList [VStr "1"; VStr "2"]) ""));
             [reflexivity | reflexivity | reflexivity | discriminate] |]).
    apply Forall_nil.
Defined.

(** X3: an operation returns a value only after it issued its request and
    got a response of status 200 whose body was read without error; the
    value is what [returned] makes of that body. *)
Theorem value_only_on_200
    (net : request -> result response) (ip_address username password : str)
    (op : operation) (log : trace) (v : value) :
  fst (call net ip_address username password op log) = Ok v ->
  snd (call net ip_address username password op log) =
    (log ++ [request_of ip_address username password op])%list /\
  exists (resp : response) (body : value),
    net (request_of ip_address username password op) = Ok resp /\
    status resp = 200%Z /\
    awaited_body op resp = Ok body /\ returned op body = Ok v.
Proof.
  rewrite call_contract. cbn [fst snd]. unfold outcome. intros Hres.
  split; [reflexivity|].
  destruct (net (request_of ip_address username password op)) as [resp|e] eqn:Hnet;
    [|discriminate Hres].
  destruct (Z.eqb_spec (status resp) 200) as [H200|H200]; [|discriminate Hres].
  cbn [negb] in Hres.
  destruct (awaited_body op resp) as [body|e] eqn:Hbody; [|discriminate Hres].
  destruct (returned op body) as [x|e] eqn:Hret; [|discriminate Hres].
  injection Hres as <-. now exists resp, body.
Qed.

Lemma value_only_on_200_witness :
  snd (call (always (ok_json (VList [VStr "1"; VStr "2"]) "")) "10.0.0.5" "Admin" "Admin"
         GetZones []) =
    [request_of "10.0.0.5" "Admin" "Admin" GetZones] /\
  exists (resp : response) (body : value),
    always (ok_json (VList [VStr "1"; VStr "2"]) "")
      (request_of "10.0.0.5" "Admin" "Admin" GetZones) = Ok resp /\
    status resp = 200%Z /\
    awaited_body GetZones resp = Ok body /\
    returned GetZones body = Ok (VList [VStr "1"; VStr "2"]).
Proof.
  apply (value_only_on_200 (always (ok_json (VList [VStr "1"; VStr "2"]) ""))
           "10.0.0.5" "Admin" "Admin" GetZones []).
  reflexivity.
Defined.

(** X4: an exception that is no [aiohttp.ClientError], raised on the
    request or while the body of a 200 response is read, leaves the
    operation as it is, after the one request: it is not wrapped. *)
Theorem other_errors_propagate
    (net : request -> result response) (ip_address username password : str)
    (op : operation) (log : trace) (e : exn) :
  isinstance_ClientError e = false ->
  (net (request_of ip_address username password op) = Raise e \/
   exists resp : response,
     net (request_of ip_address username password op) = Ok resp /\
     status resp = 200%Z /\ awaited_body op resp = Raise e) ->
  call net ip_address username password op log =
  (Raise e, (log ++ [request_of ip_address username password op])%list).
Proof.
  intros Hcls Hfail.
  rewrite call_contract. unfold outcome, translate.
  destruct Hfail as [Hnet | (resp & Hnet & Hstatus & Hbody)]; rewrite Hnet.
  - now rewrite Hcls.
  - rewrite Hstatus, Hbody. cbn. now rewrite Hcls.
Qed.

Lemma other_errors_propagate_witness :
  Forall
    (fun op =>
       call (failing TimeoutError) "10.0.0.5" "Admin" "Admin" op [] =
       (Raise TimeoutError, [request_of "10.0.0.5" "Admin" "Admin" op]))
    sample_operations.
Proof.
  unfold sample_operations.
  repeat (apply Forall_cons;
          [apply (other_errors_propagate (failing TimeoutError) "10.0.0.5" "Admin" "Admin"
                    _ [] TimeoutError);
           [reflexivity | left; reflexivity] |]).
  apply Forall_nil.
Defined.

(** X5: when the 200 body of [get_available_inputs] has no
    [available_types] field, the call raises [KeyError] for that field if
    the body is an object and [TypeError] if it is anything else. *)
Theorem available_inputs_without_field
    (net : request -> result response) (ip_address username password input_id : str)
    (log : trace) (req : request) (resp : response) (v : value) :
  snd (get_available_inputs net ip_address username password input_id log) =
    (log ++ [req])%list ->
  net req = Ok resp ->
  status resp = 200%Z ->
  json resp = Ok v ->
  (forall items, v = VDict items -> dict_get items "available_types" = None) ->
  fst (get_available_inputs net ip_address username password input_id log) =
  Raise match v with
        | VDict _ => KeyError (VStr "available_types")
        | _ => TypeError
        end.
Proof.
  intros Hreq Hnet Hstatus Hjson Habsent.
  change (get_available_inputs net ip_address username password input_id)
    with (call net ip_address username password (GetAvailableInputs input_id)) in *.
  apply issued_request in Hreq. subst req.
  rewrite call_contract. cbn [fst]. unfold outcome. rewrite Hnet, Hstatus.
  cbn [negb Z.eqb Pos.eqb awaited_body returned]. rewrite Hjson.
  destruct v as [| | | | |items|items]; try reflexivity.
  cbn [getitem_str]. now rewrite (Habsent items eq_refl).
Qed.

Lemma available_inputs_without_field_witness :
  fst (get_available_inputs (always (ok_json VNone "")) "10.0.0.5" "Admin" "Admin" "4" []) =
  Raise TypeError.
Proof.
  apply (available_inputs_without_field (always (ok_json VNone ""))
           "10.0.0.5" "Admin" "Admin" "4" []
           (request_of "10.0.0.5" "Admin" "Admin" (GetAvailableInputs "4"))
           (ok_json VNone "") VNone).
  - reflexivity.
  - reflexivity.
  - reflexivity.
  - reflexivity.
  - discriminate.
Defined.

(** ** Outcomes of the connectivity probe *)

(** The first character of a string never begins with [v2.]. *)
Lemma first_character_not_compatible (c : ascii) (t : string) :
  is_juke_compatible (String c (substring 0 (utf8_width c - 1) t)) = false.
Proof.
  unfold is_juke_compatible. cbn [api_version append startswith].
  destruct (Ascii.eqb_spec "v" c) as [<-|_]; [|reflexivity].
  change (utf8_width "v" - 1) with 0. now destruct t.
Qed.

(** X6: the probe answers [True] only when the body decoded to an object
    whose [versions] is an array with, first, a string that begins with
    [v2.]; no failure and no other body gives [True]. *)
Theorem probe_true_is_sound (net : request -> result response) (ip_address : str)
    (log : trace) :
  fst (can_connect_to_juke net ip_address log) = Ok true ->
  exists (resp : response) (items : list (str * value)) (s : str) (rest : list value),
    net (probe_request ip_address) = Ok resp /\
    json resp = Ok (VDict items) /\
    dict_get items "versions" = Some (VList (VStr s :: rest)) /\
    exists tail : str, s = "v2." ++ tail.
Proof.
  unfold probe_request. run_probe.
  destruct (net _) as [resp|e] eqn:Hnet;
    [|destruct (isinstance_ClientError e); discriminate].
  destruct (json resp) as [contents|e] eqn:Hjson;
    [|destruct (isinstance_ClientError e); discriminate].
  destruct contents as [| | | | | |items]; try discriminate.
  cbn [getitem_str].
  destruct (dict_get items "versions") as [versions|] eqn:Hversions; [|discriminate].
  destruct versions as [| | | |[|c t]|[|first rest]|]; try discriminate.
  - cbn [getitem_0 call_is_juke_compatible fst].
    rewrite first_character_not_compatible. discriminate.
  - destruct first as [| | | |s| |]; try discriminate.
    cbn [getitem_0 call_is_juke_compatible fst]. intros H. injection H as H.
    exists resp, items, s, rest.
    split; [first [exact Hnet | reflexivity]|].
    split; [exact Hjson|]. split; [exact Hversions|].
    exact (proj1 (startswith_spec (api_version ++ ".") s) H).
Qed.

Lemma probe_true_is_sound_witness :
  exists (resp : response) (items : list (str * value)) (s : str) (rest : list value),
    always (ok_json (versions_body ["v2.1"]) "") (probe_request "10.0.0.5") = Ok resp /\
    json resp = Ok (VDict items) /\
    dict_get items "versions" = Some (VList (VStr s :: rest)) /\
    exists tail : str, s = "v2." ++ tail.
Proof.
  apply (probe_true_is_sound (always (ok_json (versions_body ["v2.1"]) "")) "10.0.0.5" []).
  reflexivity.
Defined.

(** X7: an exception that is no [aiohttp.ClientError], raised on the
    request of the probe or while its body is decoded, is raised by the
    probe as it is. *)
Theorem probe_other_errors_propagate (net : request -> result response)
    (ip_address : str) (log : trace) (e : exn) :
  isinstance_ClientError e = false ->
  (net (probe_request ip_address) = Raise e \/
   exists resp : response,
     net (probe_request ip_address) = Ok resp /\ json resp = Raise e) ->
  fst (can_connect_to_juke net ip_address log) = Raise e.
Proof.
  intros Hcls [Hnet | (resp & Hnet & Hjson)]; unfold probe_request in Hnet;
    run_probe; rewrite Hnet.
  - now rewrite Hcls.
  - rewrite Hjson. now rewrite Hcls.
Qed.

Lemma probe_other_errors_propagate_witness :
  fst (can_connect_to_juke (always garbled) "10.0.0.5" []) = Raise JSONDecodeError.
Proof.
  apply (probe_other_errors_propagate (always garbled) "10.0.0.5" [] JSONDecodeError).
  - reflexivity.
  - right. exists garbled. split; reflexivity.
Defined.

(** X8: on a body that decodes to an object, the probe raises [KeyError]
    when [versions] is missing, [IndexError] when it is an empty array and
    [AttributeError] when its first element is no string; when [versions]
    is itself a non-empty string the probe answers [False]. *)
Theorem probe_on_odd_versions (net : request -> result response) (ip_address : str)
    (log : trace) (resp : response) (items : list (str * value)) :
  net (probe_request ip_address) = Ok resp ->
  json resp = Ok (VDict items) ->
  (dict_get items "versions" = None ->
   fst (can_connect_to_juke net ip_address log) = Raise (KeyError (VStr "versions"))) /\
  (dict_get items "versions" = Some (VList []) ->
   fst (can_connect_to_juke net ip_address log) = Raise IndexError) /\
  (forall (x : value) (rest : list value),
     dict_get items "versions" = Some (VList (x :: rest)) -> is_str x = false ->
     fst (can_connect_to_juke net ip_address log) = Raise AttributeError) /\
  (forall s : str,
     dict_get items "versions" = Some (VStr s) -> s <> EmptyString ->
     fst (can_connect_to_juke net ip_address log) = Ok false).
Proof.
  intros Hnet Hjson. unfold probe_request in Hnet.
  repeat split; run_probe; rewrite Hnet, Hjson; cbn [getitem_str].
  - intros ->. reflexivity.
  - intros ->. reflexivity.
  - intros x rest -> Hx. destruct x; try reflexivity. discriminate Hx.
  - intros s -> Hs. destruct s as [|c t]; [contradiction|].
    cbn [getitem_0 call_is_juke_compatible fst].
    now rewrite first_character_not_compatible.
Qed.

Lemma probe_on_odd_versions_witness :
  (dict_get [("versions", VStr "v2.1")] "versions" = None ->
   fst (can_connect_to_juke (always (ok_json (VDict [("versions", VStr "v2.1")]) ""))
          "10.0.0.5" []) = Raise (KeyError (VStr "versions"))) /\
  (dict_get [("versions", VStr "v2.1")] "versions" = Some (VList []) ->
   fst (can_connect_to_juke (always (ok_json (VDict [("versions", VStr "v2.1")]) ""))
          "10.0.0.5" []) = Raise IndexError) /\
  (forall (x : value) (rest : list value),
     dict_get [("versions", VStr "v2.1")] "versions" = Some (VList (x :: rest)) ->
     is_str x = false ->
     fst (can_connect_to_juke (always (ok_json (VDict [("versions", VStr "v2.1")]) ""))
            "10.0.0.5" []) = Raise AttributeError) /\
  (forall s : str,
     dict_get [("versions", VStr "v2.1")] "versions" = Some (VStr s) -> s <> EmptyString ->
     fst (can_connect_to_juke (always (ok_json (VDict [("versions", VStr "v2.1")]) ""))
            "10.0.0.5" []) = Ok false).
Proof.
  apply (probe_on_odd_versions (always (ok_json (VDict [("versions", VStr "v2.1")]) ""))
           "10.0.0.5" [] (ok_json (VDict [("versions", VStr "v2.1")]) "")
           [("versions", VStr "v2.1")]).
  - reflexivity.
  - reflexivity.
Defined.

(** ** The authorisation token, further *)

Lemma encode_sextet_char (x : Base64.sextet) :
  is_b64_char (Base64.encode_sextet x) = true /\ is_ascii (Base64.encode_sextet x) = true.
Proof.
  destruct x as [b5 b4 b3 b2 b1 b0].
  destruct b5, b4, b3, b2, b1, b0; split; reflexivity.
Qed.

Lemma b64encode_chars (data : bytes) :
  string_forall is_b64_char (Base64.b64encode data) = true /\
  string_forall is_ascii (Base64.b64encode data) = true.
Proof.
  induction data as [|a|a b|a b c rest [IH1 IH2]] using Base64Facts.string_ind3;
    cbn [Base64.b64encode string_forall].
  - now split.
  - destruct (encode_sextet_char (Base64.sextet1 a)) as [-> ->].
    destruct (encode_sextet_char (Base64.sextet2 a Base64.zero)) as [-> ->].
    now split.
  - destruct (encode_sextet_char (Base64.sextet1 a)) as [-> ->].
    destruct (encode_sextet_char (Base64.sextet2 a b)) as [-> ->].
    destruct (encode_sextet_char (Base64.sextet3 b Base64.zero)) as [-> ->].
    now split.
  - destruct (encode_sextet_char (Base64.sextet1 a)) as [-> ->].
    destruct (encode_sextet_char (Base64.sextet2 a b)) as [-> ->].
    destruct (encode_sextet_char (Base64.sextet3 b c)) as [-> ->].
    destruct (encode_sextet_char (Base64.sextet4 c)) as [-> ->].
    now rewrite IH1, IH2.
Qed.

(** X9: the token is made of characters of the base64 alphabet and of
    [=] only, all of them ASCII (so decoding it as UTF-8 cannot fail), and
    has four characters for every three bytes, or part of three, of [u:p]. *)
Theorem auth_token_shape (u p : str) :
  string_forall is_b64_char (create_auth_header u p) = true /\
  string_forall is_ascii (create_auth_header u p) = true /\
  String.length (create_auth_header u p) =
    4 * ((String.length u + 1 + String.length p + 2) / 3).
Proof.
  unfold create_auth_header, decode_ascii, encode_utf8.
  destruct (b64encode_chars (u ++ ":" ++ p)) as [H1 H2].
  repeat split; [exact H1 | exact H2 |].
  rewrite Base64Facts.b64encode_length, JsonFacts.length_append.
  cbn [append String.length]. do 2 f_equal. lia.
Qed.

Lemma split_at_first (c : ascii) (u u' p p' : string) :
  occurs c u = false -> occurs c u' = false ->
  u ++ String c p = u' ++ String c p' -> u = u' /\ p = p'.
Proof.
  revert u'; induction u as [|x u IH]; intros [|y u'] Hu Hu' Heq; cbn [append] in Heq.
  - injection Heq as ->. now split.
  - injection Heq as <- _. cbn [occurs] in Hu'.
    now rewrite Ascii.eqb_refl in Hu'.
  - injection Heq as -> _. cbn [occurs] in Hu.
    now rewrite Ascii.eqb_refl in Hu.
  - injection Heq as -> Heq. cbn [occurs] in Hu, Hu'.
    apply orb_false_elim in Hu as [_ Hu]. apply orb_false_elim in Hu' as [_ Hu'].
    destruct (IH u' Hu Hu' Heq) as [-> ->]. now split.
Qed.

(** X10: for user names without a colon the token determines the
    credentials: equal tokens come from equal user names and passwords. *)
Theorem auth_token_injective (u p u' p' : str) :
  occurs ":" u = false ->
  occurs ":" u' = false ->
  create_auth_header u p = create_auth_header u' p' ->
  u = u' /\ p = p'.
Proof.
  intros Hu Hu' Htoken.
  apply (f_equal Base64.b64decode) in Htoken.
  unfold create_auth_header, decode_ascii, encode_utf8 in Htoken.
  rewrite !Base64Facts.b64decode_b64encode in Htoken.
  injection Htoken as Htoken.
  exact (split_at_first ":" u u' p p' Hu Hu' Htoken).
Qed.

Lemma auth_token_injective_witness : "Admin" = "Admin" /\ "secret" = "secret".
Proof.
  apply (auth_token_injective "Admin" "secret" "Admin" "secret").
  - reflexivity.
  - reflexivity.
  - reflexivity.
Defined.

(** X11: a colon in the user name makes the token ambiguous: the user
    [u:x] with password [p] and the user [u] with password [x:p] get the
    same token. *)
Theorem auth_token_colon_ambiguity (u x p : str) :
  create_auth_header (u ++ ":" ++ x) p = create_auth_header u (x ++ ":" ++ p) /\
  (u ++ ":" ++ x, p) <> (u, x ++ ":" ++ p).
Proof.
  split.
  - unfold create_auth_header. now rewrite JsonFacts.append_assoc.
  - intros H. injection H as H _.
    apply (f_equal String.length) in H.
    rewrite JsonFacts.length_append in H. cbn [append String.length] in H. lia.
Qed.

(** ** The body of [set_zone_input], further *)

(** Reading one plain string and what follows its closing quote. *)
Lemma elements_plain_head (fuel : nat) (a rest : string) :
  is_plain a = true ->
  JsonText.elements (S fuel) (String dquote (a ++ String dquote rest)) =
  match JsonText.skip_ws rest with
  | EmptyString => None
  | String d r2 =>
      if Ascii.eqb d "]" then (if JsonText.all_ws r2 then Some [a] else None)
      else if Ascii.eqb d "," then option_map (cons a) (JsonText.elements fuel r2)
      else None
  end.
Proof.
  intros Hplain. cbn [JsonText.elements].
  change (JsonText.skip_ws (String dquote (a ++ String dquote rest)))
    with (String dquote (a ++ String dquote rest)).
  cbv beta iota.
  rewrite Ascii.eqb_refl, (JsonFacts.scan_string_plain a rest Hplain),
    JsonFacts.assemble_pieces_of.
  reflexivity.
Qed.

(** X12: for a non-empty input the text [set_zone_input] sends reads as
    the JSON array of exactly that input if and only if the input has no
    double quote, no backslash and no control character. *)
Theorem zone_input_reads_back_iff_plain (net : request -> result response)
    (ip_address username password zone_id : str) (s : str) (log : trace) :
  s <> EmptyString ->
  exists body : str,
    snd (set_zone_input net ip_address username password zone_id (Some s) log) =
      (log ++ [zone_input_request ip_address username password zone_id body])%list /\
    (JsonText.loads_string_array body = Some [s] <-> is_plain s = true).
Proof.
  intros Hs. exists ("[" ++ quoted s ++ "]"). split.
  - rewrite zone_input_trace. destruct s as [|c s]; [contradiction | reflexivity].
  - split; [apply JsonFacts.loads_not_plain | apply JsonFacts.loads_plain].
Qed.

Lemma zone_input_reads_back_iff_plain_witness :
  exists body : str,
    snd (set_zone_input (always (ok_text "OK")) "10.0.0.5" "Admin" "Admin" "3"
           (Some "aux1") []) =
      [zone_input_request "10.0.0.5" "Admin" "Admin" "3" body] /\
    (JsonText.loads_string_array body = Some ["aux1"] <-> is_plain "aux1" = true).
Proof.
  apply (zone_input_reads_back_iff_plain (always (ok_text "OK")) "10.0.0.5" "Admin" "Admin"
           "3" "aux1" []).
  discriminate.
Defined.

(** X13: an input can carry more than one element: for plain [a] and [b]
    the input [a","b] makes [set_zone_input] send a text that reads as the
    JSON array of the two strings [a] and [b]. *)
Theorem zone_input_two_elements (net : request -> result response)
    (ip_address username password zone_id : str) (a b : str) (log : trace) :
  is_plain a = true ->
  is_plain b = true ->
  exists body : str,
    snd (set_zone_input net ip_address username password zone_id
           (Some (a ++ quote_comma_quote ++ b)) log) =
      (log ++ [zone_input_request ip_address username password zone_id body])%list /\
    JsonText.loads_string_array body = Some [a; b].
Proof.
  intros Ha Hb. exists ("[" ++ quoted (a ++ quote_comma_quote ++ b) ++ "]"). split.
  - rewrite zone_input_trace.
    destruct a as [|c a]; reflexivity.
  - rewrite JsonFacts.loads_bracketed.
    unfold quote_comma_quote.
    rewrite JsonFacts.append_assoc. cbn [append String.length].
    rewrite (elements_plain_head _ a _ Ha).
    change (JsonText.skip_ws (String "," (String dquote (b ++ String dquote "]"))))
      with (String "," (String dquote (b ++ String dquote "]"))).
    cbv beta iota.
    change (Ascii.eqb "," "]") with false. change (Ascii.eqb "," ",") with true.
    cbv beta iota.
    rewrite JsonFacts.length_append. cbn [String.length]. rewrite Nat.add_succ_r.
    rewrite (elements_plain_head _ b "]" Hb).
    reflexivity.
Qed.

Lemma zone_input_two_elements_witness :
  exists body : str,
    snd (set_zone_input (always (ok_text "OK")) "10.0.0.5" "Admin" "Admin" "3"
           (Some ("aux1" ++ quote_comma_quote ++ "aux2")) []) =
      [zone_input_request "10.0.0.5" "Admin" "Admin" "3" body] /\
    JsonText.loads_string_array body = Some ["aux1"; "aux2"].
Proof.
  apply (zone_input_two_elements (always (ok_text "OK")) "10.0.0.5" "Admin" "Admin" "3"
           "aux1" "aux2" []).
  - reflexivity.
  - reflexivity.
Defined.
